(** * notification-mcp: the tool handlers of [src/index.ts]

    A shallow embedding of the five MCP tool handlers (get-alerts,
    get-forecast, register-notification, get-user-notifications,
    get-latest-token-price) and of the helpers they use
    ([makeNWSRequest], [formatAlert]), followed by the properties of the
    response-formatting contract.

    JavaScript values decoded from provider responses are modelled by the
    type [value]; the ECMAScript operations the handlers apply to them
    (truthiness, property reads, template-literal string conversion,
    [Array.prototype.map], [Number.prototype.toFixed]) are written out.
    A handler is a finite tree of [fetch] calls ([prog]); running it
    against a world that answers each call gives the list of requests it
    issued and either the envelope it returned or the error it threw. *)

From Stdlib Require Import List String Ascii Bool ZArith NArith Lia.
From Stdlib Require Import DecimalString DecimalFacts DecimalPos DecimalN.
Import ListNotations.

Set Warnings "-register-all".
Open Scope string_scope.

(** ** Errors and completions *)

(** A thrown JavaScript error object: its [name] and [message]
    properties. *)
Record js_error : Type := mkError { err_name : string; err_message : string }.

Definition Error (msg : string) : js_error := mkError "Error" msg.
Definition TypeError (msg : string) : js_error := mkError "TypeError" msg.

(** [Error.prototype.toString], which a template literal applies to a
    caught error. *)
Definition error_to_string (e : js_error) : string :=
  if (err_name e =? "")%string then err_message e
  else if (err_message e =? "")%string then err_name e
  else err_name e ++ ": " ++ err_message e.

(** The completion of a pure evaluation: a value, or a thrown error. *)
Inductive completion (A : Type) : Type :=
| Normal (a : A)
| Abrupt (e : js_error).
Arguments Normal {A} a.
Arguments Abrupt {A} e.

Definition cbind {A B} (c : completion A) (f : A -> completion B) : completion B :=
  match c with
  | Normal a => f a
  | Abrupt e => Abrupt e
  end.

Declare Scope completion_scope.
Delimit Scope completion_scope with completion.
Notation "x <- c ;; k" := (cbind c (fun x => k))
  (at level 61, c at next level, right associativity) : completion_scope.

(** ** Numbers *)

(** A JavaScript number (IEEE 754 binary64): NaN, an infinity, or the
    finite value [(-1)^negative * mantissa * 2^exponent].  Both zeros are
    finite numbers with mantissa 0. *)
Inductive number : Type :=
| NaN
| Infinity (negative : bool)
| Finite (negative : bool) (mantissa : N) (exponent : Z).

Definition number_of_nat (n : nat) : number := Finite false (N.of_nat n) 0.

(** ToBoolean on a number: false for NaN, +0 and -0. *)
Definition number_truthy (x : number) : bool :=
  match x with
  | NaN => false
  | Infinity _ => true
  | Finite _ m _ => negb (m =? 0)%N
  end.

Definition signed_mantissa (s : bool) (m : N) : Z :=
  if s then (- Z.of_N m)%Z else Z.of_N m.

(** Comparison of a number with an integer; [None] when the number is
    NaN (every comparison with NaN is false). *)
Definition number_compare_Z (x : number) (z : Z) : option comparison :=
  match x with
  | NaN => None
  | Infinity true => Some Lt
  | Infinity false => Some Gt
  | Finite s m e =>
      if (0 <=? e)%Z
      then Some (signed_mantissa s m * 2 ^ e ?= z)%Z
      else Some (signed_mantissa s m ?= z * 2 ^ (- e))%Z
  end.

(** [x >= z] and [x <= z] as JavaScript evaluates them. *)
Definition number_geb (x : number) (z : Z) : bool :=
  match number_compare_Z x z with
  | Some Gt | Some Eq => true
  | _ => false
  end.

Definition number_leb (x : number) (z : Z) : bool :=
  match number_compare_Z x z with
  | Some Lt | Some Eq => true
  | _ => false
  end.

(** ** Strings *)

(** JavaScript strings are held as Rocq strings of UTF-8 bytes. *)

Definition join (sep : string) (l : list string) : string := String.concat sep l.

(** The digits of the decimal representation of [n]. *)
Definition decimal (n : N) : string := NilEmpty.string_of_uint (N.to_uint n).

(** The line feed, written [\n] in the source. *)
Definition newline : string := String "010" "".

Fixpoint repeat_string (s : string) (n : nat) : string :=
  match n with
  | O => ""
  | S n' => s ++ repeat_string s n'
  end.

(** The number of UTF-16 code units of a UTF-8 string: one per code
    point, two for a code point outside the basic plane (a four-byte
    sequence). *)
Fixpoint utf16_length (s : string) : nat :=
  match s with
  | EmptyString => 0
  | String c rest =>
      let b := N_of_ascii c in
      (if (b <? 128)%N then 1
       else if (b <? 192)%N then 0
       else if (b <? 240)%N then 1
       else 2) + utf16_length rest
  end.

(** ** Values *)

(** A JavaScript value as [JSON.parse] produces it, together with
    [undefined], the result of reading an absent property.  An object
    keeps its properties in order; a property read takes the first
    binding of the key. *)
Inductive value : Type :=
| VUndefined
| VNull
| VBool (b : bool)
| VNum (x : number)
| VStr (s : string)
| VArr (elements : list value)
| VObj (properties : list (string * value)).

(** ToBoolean. *)
Definition truthy (v : value) : bool :=
  match v with
  | VUndefined | VNull => false
  | VBool b => b
  | VNum x => number_truthy x
  | VStr s => negb (s =? "")%string
  | VArr _ | VObj _ => true
  end.

(** [a || b]. *)
Definition or_else (a b : value) : value := if truthy a then a else b.

Fixpoint lookup (k : string) (kvs : list (string * value)) : option value :=
  match kvs with
  | [] => None
  | (k', v) :: rest => if (k' =? k)%string then Some v else lookup k rest
  end.

Definition has_own (k : string) (kvs : list (string * value)) : bool :=
  match lookup k kvs with
  | Some _ => true
  | None => false
  end.

(** [v === 0]. *)
Definition strict_equals_zero (v : value) : bool :=
  match v with
  | VNum (Finite _ m _) => (m =? 0)%N
  | _ => false
  end.

Definition nullish (v : value) : bool :=
  match v with
  | VUndefined | VNull => true
  | _ => false
  end.

Definition nullish_name (v : value) : string :=
  match v with
  | VUndefined => "undefined"
  | _ => "null"
  end.

(** [v.k] for the property names the handlers read as data (features,
    properties, forecast, periods, length, the alert, period and
    notification fields, userNotifications, latestTokenPrices).  None of
    them is an array index or a member of a built-in prototype, except
    [length] on arrays and strings.  Reading a property of [null] or
    [undefined] throws a TypeError (message as V8 words it). *)
Definition get_prop (v : value) (k : string) : completion value :=
  match v with
  | VUndefined | VNull =>
      Abrupt (TypeError ("Cannot read properties of " ++ nullish_name v
                         ++ " (reading '" ++ k ++ "')"))
  | VObj kvs =>
      Normal (match lookup k kvs with Some x => x | None => VUndefined end)
  | VArr l =>
      Normal (if (k =? "length")%string then VNum (number_of_nat (List.length l))
              else VUndefined)
  | VStr s =>
      Normal (if (k =? "length")%string then VNum (number_of_nat (utf16_length s))
              else VUndefined)
  | VBool _ | VNum _ => Normal VUndefined
  end.

(** [v?.k]. *)
Definition get_prop_opt (v : value) (k : string) : completion value :=
  if nullish v then Normal VUndefined else get_prop v k.

(** ** Runtime primitives left abstract *)

(** Three primitives of the JavaScript runtime are taken as given:
    [Number::toString] in radix 10 (the shortest digits that read back as
    the same double), [String.prototype.toUpperCase] and
    [JSON.stringify(v, null, indent)] on a value other than
    [undefined]. *)
Class Runtime : Type := {
  Number_toString : number -> string;
  String_toUpperCase : string -> string;
  JSON_stringify : nat -> value -> string
}.

(** ** HTTP and the response envelope *)

Record request : Type := mkRequest {
  req_method : string;
  req_url : string;
  req_headers : list (string * string);
  req_body : option string
}.

(** A [Response] object as the handlers use it: its status, and what
    reading the body with [text()] or with [json()] gives.  A body that is
    not JSON makes [json()] throw a SyntaxError. *)
Record Response : Type := mkResponse {
  status : N;
  body_text : completion string;
  body_json : completion value
}.

(** [response.ok]. *)
Definition ok (r : Response) : bool := ((200 <=? status r) && (status r <=? 299))%N.

(** What [await fetch(...)] gives: the promise rejects (network failure,
    invalid URL) or resolves to a response of any status. *)
Inductive fetch_result : Type :=
| Rejected (e : js_error)
| Resolved (r : Response).

Record content_block : Type := mkBlock { type : string; text : string }.
Record envelope : Type := mkEnvelope { content : list content_block }.

(** The object literal [{ content: [{ type: "text", text }] }] that every
    return statement of the handlers builds. *)
Definition text_content (s : string) : envelope :=
  {| content := [ {| type := "text"; text := s |} ] |}.

(** ** Handler programs *)

(** An async function body: it returns, throws, or awaits a [fetch] and
    continues with what the call gave. *)
Inductive prog (A : Type) : Type :=
| Ret (a : A)
| Throw (e : js_error)
| Fetch (rq : request) (k : fetch_result -> prog A).
Arguments Ret {A} a.
Arguments Throw {A} e.
Arguments Fetch {A} rq k.

Fixpoint bind {A B} (p : prog A) (f : A -> prog B) : prog B :=
  match p with
  | Ret a => f a
  | Throw e => Throw e
  | Fetch rq k => Fetch rq (fun r => bind (k r) f)
  end.

(** [try { p } catch (error) { h error }]. *)
Fixpoint try_catch {A} (p : prog A) (h : js_error -> prog A) : prog A :=
  match p with
  | Ret a => Ret a
  | Throw e => h e
  | Fetch rq k => Fetch rq (fun r => try_catch (k r) h)
  end.

Definition lift {A} (c : completion A) : prog A :=
  match c with
  | Normal a => Ret a
  | Abrupt e => Throw e
  end.

(** [await fetch(url, init)]. *)
Definition fetch (rq : request) : prog Response :=
  Fetch rq (fun r => match r with
                     | Rejected e => Throw e
                     | Resolved resp => Ret resp
                     end).

Declare Scope prog_scope.
Delimit Scope prog_scope with prog.
Notation "x <- c ;; k" := (bind c (fun x => k))
  (at level 61, c at next level, right associativity) : prog_scope.

(** The outside world answers the [n]-th call of an invocation. *)
Definition world : Type := nat -> request -> fetch_result.

Inductive outcome (A : Type) : Type :=
| Returned (a : A)
| Threw (e : js_error).
Arguments Returned {A} a.
Arguments Threw {A} e.

(** Running a program from call number [n]: the requests issued, in
    order, and how the program ended. *)
Fixpoint run {A} (p : prog A) (w : world) (n : nat) : list request * outcome A :=
  match p with
  | Ret a => ([], Returned a)
  | Throw e => ([], Threw e)
  | Fetch rq k =>
      let (calls, o) := run (k (w n rq)) w (S n) in (rq :: calls, o)
  end.

Definition calls_of {A} (p : prog A) (w : world) : list request := fst (run p w 0).
Definition outcome_of {A} (p : prog A) (w : world) : outcome A := snd (run p w 0).

(** ** The program *)

Definition NWS_API_BASE : string := "https://api.weather.gov".
Definition USER_AGENT : string := "weather-app/1.0".

Section Program.

Context {rt : Runtime}.

(** ToString, as a template literal applies it to a substitution.  An
    array converts through [Array.prototype.join], which renders [null]
    and [undefined] elements as empty strings.  An object converts to
    [[object Object]] unless it has an own [toString] property: a parsed
    value is never callable, [Object.prototype.valueOf] then returns the
    object itself, and the conversion throws. *)
Fixpoint ToString (v : value) : completion string :=
  match v with
  | VUndefined => Normal "undefined"
  | VNull => Normal "null"
  | VBool b => Normal (if b then "true" else "false")
  | VNum x => Normal (Number_toString x)
  | VStr s => Normal s
  | VArr l =>
      (fix join_elements (l : list value) : completion string :=
         match l with
         | [] => Normal ""
         | x :: rest =>
             (s <- (match x with
                    | VUndefined | VNull => Normal ""
                    | _ => ToString x
                    end) ;;
              match rest with
              | [] => Normal s
              | _ => r <- join_elements rest ;; Normal (s ++ "," ++ r)
              end)%completion
         end) l
  | VObj kvs =>
      if has_own "toString" kvs
      then Abrupt (TypeError "Cannot convert object to primitive value")
      else Normal "[object Object]"
  end.

(** [`${a || fallback}`]: the substitution of a template literal. *)
Definition subst_or (a : value) (fallback : string) : completion string :=
  ToString (or_else a (VStr fallback)).

(** [recv.map(f)]: only an array has a callable [map]; on any other
    value the call throws a TypeError.  The callback receives the element
    and its index. *)
Fixpoint map_from {B} (f : value -> nat -> completion B) (l : list value) (i : nat)
  : completion (list B) :=
  match l with
  | [] => Normal []
  | x :: rest =>
      (y <- f x i ;; ys <- map_from f rest (S i) ;; Normal (y :: ys))%completion
  end.

Definition array_map {B} (recv_name : string) (recv : value)
  (f : value -> nat -> completion B) : completion (list B) :=
  match recv with
  | VArr l => map_from f l 0
  | VUndefined | VNull =>
      Abrupt (TypeError ("Cannot read properties of " ++ nullish_name recv
                         ++ " (reading 'map')"))
  | _ => Abrupt (TypeError (recv_name ++ ".map is not a function"))
  end.

(** [x.toFixed(f)] (ECMAScript, Number.prototype.toFixed): a non-finite
    number and a number of magnitude at least 10^21 convert as ToString
    does; otherwise [n] is the integer nearest to [|x| * 10^f], the larger
    one on a tie, its digits are padded with zeros to [f + 1] places and
    the point is put before the last [f]. *)
Definition toFixed_n (f : nat) (m : N) (e : Z) : N :=
  let scaled := (m * 10 ^ N.of_nat f)%N in
  if (0 <=? e)%Z then (scaled * 2 ^ Z.to_N e)%N
  else let d := (2 ^ Z.to_N (- e))%N in ((2 * scaled + d) / (2 * d))%N.

Definition toFixed_large (m : N) (e : Z) : bool :=
  if (0 <=? e)%Z then (10 ^ 21 <=? m * 2 ^ Z.to_N e)%N
  else (10 ^ 21 * 2 ^ Z.to_N (- e) <=? m)%N.

Definition toFixed_digits (f : nat) (n : N) : string :=
  let m := if (n =? 0)%N then "0" else decimal n in
  let k := String.length m in
  if (f =? 0)%nat then m
  else
    let m := if (k <=? f)%nat then repeat_string "0" (f + 1 - k) ++ m else m in
    let k := String.length m in
    substring 0 (k - f) m ++ "." ++ substring (k - f) f m.

Definition toFixed (f : nat) (x : number) : string :=
  match x with
  | NaN | Infinity _ => Number_toString x
  | Finite s m e =>
      let sign := if s && negb (m =? 0)%N then "-" else "" in
      if toFixed_large m e then sign ++ Number_toString (Finite false m e)
      else sign ++ toFixed_digits f (toFixed_n f m e)
  end.

(** [formatAlert]: the five labelled lines and the separator. *)
Definition alert_lines (feature : value) : completion (list string) :=
  (props <- get_prop feature "properties" ;;
   event <- get_prop props "event" ;;
   event <- subst_or event "Unknown" ;;
   areaDesc <- get_prop props "areaDesc" ;;
   areaDesc <- subst_or areaDesc "Unknown" ;;
   severity <- get_prop props "severity" ;;
   severity <- subst_or severity "Unknown" ;;
   status <- get_prop props "status" ;;
   status <- subst_or status "Unknown" ;;
   headline <- get_prop props "headline" ;;
   headline <- subst_or headline "No headline" ;;
   Normal [ "Event: " ++ event;
            "Area: " ++ areaDesc;
            "Severity: " ++ severity;
            "Status: " ++ status;
            "Headline: " ++ headline;
            "---" ])%completion.

Definition formatAlert (feature : value) : completion string :=
  (lines <- alert_lines feature ;; Normal (join newline lines))%completion.

(** The callback of [periods.map] in get-forecast. *)
Definition period_lines (period : value) : completion (list string) :=
  (name <- get_prop period "name" ;;
   name <- subst_or name "Unknown" ;;
   temperature <- get_prop period "temperature" ;;
   temperature <- subst_or temperature "Unknown" ;;
   temperatureUnit <- get_prop period "temperatureUnit" ;;
   temperatureUnit <- subst_or temperatureUnit "F" ;;
   windSpeed <- get_prop period "windSpeed" ;;
   windSpeed <- subst_or windSpeed "Unknown" ;;
   windDirection <- get_prop period "windDirection" ;;
   windDirection <- subst_or windDirection "" ;;
   shortForecast <- get_prop period "shortForecast" ;;
   shortForecast <- subst_or shortForecast "No forecast available" ;;
   Normal [ name ++ ":";
            "Temperature: " ++ temperature ++ "Â°" ++ temperatureUnit;
            "Wind: " ++ windSpeed ++ " " ++ windDirection;
            shortForecast;
            "---" ])%completion.

Definition formatPeriod (period : value) : completion string :=
  (lines <- period_lines period ;; Normal (join newline lines))%completion.

(** [makeNWSRequest]: one GET; a rejected fetch, a status outside
    200..299 and a body that does not decode all end in the catch block,
    which returns [null].  ([console.error], which only writes a
    diagnostic, is left out.) *)
Definition nws_request (url : string) : request :=
  let headers := [("User-Agent", USER_AGENT); ("Accept", "application/geo+json")] in
  mkRequest "GET" url headers None.

Definition makeNWSRequest (url : value) : prog value :=
  try_catch
    (u <- lift (ToString url) ;;
     response <- fetch (nws_request u) ;;
     if negb (ok response)
     then Throw (Error ("HTTP error! status: " ++ decimal (status response)))
     else lift (body_json response))%prog
    (fun error => Ret VNull).

(** The get-alerts handler. *)
Definition get_alerts (state : string) : prog envelope :=
  let stateCode := String_toUpperCase state in
  let alertsUrl := NWS_API_BASE ++ "/alerts?area=" ++ stateCode in
  (alertsData <- makeNWSRequest (VStr alertsUrl) ;;
   if negb (truthy alertsData)
   then Ret (text_content "Failed to retrieve alerts data")
   else
     features <- lift (get_prop alertsData "features") ;;
     let features := or_else features (VArr []) in
     len <- lift (get_prop features "length") ;;
     if strict_equals_zero len
     then Ret (text_content ("No active alerts for " ++ stateCode))
     else
       formattedAlerts <-
         lift (array_map "features" features (fun feature _ => formatAlert feature)) ;;
       let alertsText :=
         "Active alerts for " ++ stateCode ++ ":" ++ newline ++ newline
         ++ join newline formattedAlerts in
       Ret (text_content alertsText))%prog.

Definition pointsUrl (latitude longitude : number) : string :=
  NWS_API_BASE ++ "/points/" ++ toFixed 4 latitude ++ "," ++ toFixed 4 longitude.

(** The get-forecast handler. *)
Definition get_forecast (latitude longitude : number) : prog envelope :=
  (pointsData <- makeNWSRequest (VStr (pointsUrl latitude longitude)) ;;
   if negb (truthy pointsData)
   then Ret (text_content
               ("Failed to retrieve grid point data for coordinates: "
                ++ Number_toString latitude ++ ", " ++ Number_toString longitude
                ++ ". This location may not be supported by the NWS API (only US locations are supported)."))
   else
     properties <- lift (get_prop pointsData "properties") ;;
     forecastUrl <- lift (get_prop_opt properties "forecast") ;;
     if negb (truthy forecastUrl)
     then Ret (text_content "Failed to get forecast URL from grid point data")
     else
       forecastData <- makeNWSRequest forecastUrl ;;
       if negb (truthy forecastData)
       then Ret (text_content "Failed to retrieve forecast data")
       else
         properties <- lift (get_prop forecastData "properties") ;;
         periods <- lift (get_prop_opt properties "periods") ;;
         let periods := or_else periods (VArr []) in
         len <- lift (get_prop periods "length") ;;
         if strict_equals_zero len
         then Ret (text_content "No forecast periods available")
         else
           formattedForecast <-
             lift (array_map "periods" periods (fun period _ => formatPeriod period)) ;;
           let forecastText :=
             "Forecast for " ++ Number_toString latitude ++ ", "
             ++ Number_toString longitude ++ ":" ++ newline ++ newline
             ++ join newline formattedForecast in
           Ret (text_content forecastText))%prog.

Definition notification_request (session_id token targetPrice : string) : request :=
  mkRequest "POST" "http://localhost:3001/api/notification"
    [("Content-Type", "application/json")]
    (Some (JSON_stringify 0
             (VObj [("session_id", VStr session_id);
                    ("token", VStr token);
                    ("targetPrice", VStr targetPrice)]))).

(** The register-notification handler. *)
Definition register_notification (session_id token targetPrice : string)
  : prog envelope :=
  try_catch
    (response <- fetch (notification_request session_id token targetPrice) ;;
     result <- lift (body_text response) ;;
     Ret (text_content
            ("âœ… Price alert registered successfully:" ++ newline ++ newline
             ++ result)))%prog
    (fun error =>
       Ret (text_content ("âŒ Failed to register alert: " ++ error_to_string error))).

(** The callback of [notifications.map] in get-user-notifications. *)
Definition notification_line (n : value) (i : nat) : completion string :=
  (token <- get_prop n "token" ;;
   token <- ToString token ;;
   targetPrice <- get_prop n "targetPrice" ;;
   targetPrice <- ToString targetPrice ;;
   condition <- get_prop n "condition" ;;
   condition <- ToString condition ;;
   Normal ("#" ++ decimal (N.of_nat (i + 1)) ++ " - Token: " ++ token
           ++ ", Target: " ++ targetPrice ++ ", Condition: " ++ condition))%completion.

Definition user_notifications_request (session_id : string) : request :=
  mkRequest "GET"
    ("http://localhost:3001/api/userNotification?session_id=" ++ session_id)
    [] None.

(** The get-user-notifications handler. *)
Definition get_user_notifications (session_id : string) : prog envelope :=
  try_catch
    (response <- fetch (user_notifications_request session_id) ;;
     data <- lift (body_json response) ;;
     notifications <- lift (get_prop data "userNotifications") ;;
     none <- (if negb (truthy notifications) then Ret true
              else len <- lift (get_prop notifications "length") ;;
                   Ret (strict_equals_zero len)) ;;
     if (none : bool)
     then Ret (text_content ("â„¹ï¸ No notifications found for session: " ++ session_id))
     else
       formatted <- lift (array_map "notifications" notifications notification_line) ;;
       Ret (text_content
              ("ðŸ“¬ Notifications for session **" ++ session_id ++ "**:"
               ++ newline ++ newline ++ join newline formatted)))%prog
    (fun error =>
       Ret (text_content
              ("âŒ Failed to fetch notifications: "
               ++ (if (err_message error =? "")%string then "Unknown error"
                   else err_message error)))).

(** [`${JSON.stringify(v, null, 2)}`]: [JSON.stringify] gives
    [undefined] for [undefined]. *)
Definition stringify_pretty (v : value) : string :=
  match v with
  | VUndefined => "undefined"
  | _ => JSON_stringify 2 v
  end.

Definition token_price_request : request :=
  mkRequest "GET" "http://localhost:3001/api/latestTokenPrice"
    [("Content-Type", "application/json")] None.

(** The get-latest-token-price handler. *)
Definition get_latest_token_price : prog envelope :=
  try_catch
    (response <- fetch token_price_request ;;
     if negb (ok response)
     then Throw (Error "Failed to fetch latest token prices")
     else
       data <- lift (body_json response) ;;
       latestTokenPrices <- lift (get_prop data "latestTokenPrices") ;;
       Ret (text_content
              ("Latest Token Prices:" ++ newline ++ newline
               ++ stringify_pretty latestTokenPrices)))%prog
    (fun error =>
       Ret (text_content
              ("Error retrieving latest token prices: " ++ error_to_string error))).

(** A tool invocation: the tool and its arguments, as the substrate
    hands them to the handler. *)
Inductive tool_call : Type :=
| GetAlerts (state : string)
| GetForecast (latitude longitude : number)
| RegisterNotification (session_id token targetPrice : string)
| GetUserNotifications (session_id : string)
| GetLatestTokenPrice.

Definition handler (c : tool_call) : prog envelope :=
  match c with
  | GetAlerts state => get_alerts state
  | GetForecast latitude longitude => get_forecast latitude longitude
  | RegisterNotification session_id token targetPrice =>
      register_notification session_id token targetPrice
  | GetUserNotifications session_id => get_user_notifications session_id
  | GetLatestTokenPrice => get_latest_token_price
  end.

(** The declared bounds of a coordinate, [z.number().min(lo).max(hi)]:
    a latitude in [-90, 90], a longitude in [-180, 180]. *)
Definition in_range (lo hi : Z) (x : number) : bool :=
  number_geb x lo && number_leb x hi.

End Program.

(** ** A runtime to evaluate the model with *)

(** A concrete [Runtime] for running the handlers on examples.  Its
    [Number_toString] prints the exact decimal expansion of a finite
    number, which is what JavaScript prints for the integers below 10^21
    and for fractions such as 40.5 whose expansion is short; its
    [String_toUpperCase] changes the ASCII letters only. *)
Module Sample.

Definition upper_ascii (c : ascii) : ascii :=
  let n := N_of_ascii c in
  if ((97 <=? n) && (n <=? 122))%N then ascii_of_N (n - 32) else c.

Fixpoint toUpperCase (s : string) : string :=
  match s with
  | EmptyString => EmptyString
  | String c rest => String (upper_ascii c) (toUpperCase rest)
  end.

Fixpoint strip_zeros (rev_digits : list ascii) : list ascii :=
  match rev_digits with
  | "0"%char :: rest => strip_zeros rest
  | _ => rev_digits
  end.

Definition exact_decimal (m : N) (e : Z) : string :=
  if (0 <=? e)%Z then decimal (m * 2 ^ Z.to_N e)
  else
    let k := Z.to_N (- e) in
    if (m mod 2 ^ k =? 0)%N then decimal (m / 2 ^ k)
    else
      let digits := decimal (m * 5 ^ k) in
      let f := N.to_nat k in
      let digits :=
        if (String.length digits <=? f)%nat
        then repeat_string "0" (f + 1 - String.length digits) ++ digits
        else digits in
      let k' := String.length digits in
      substring 0 (k' - f) digits ++ "."
      ++ string_of_list_ascii
           (rev (strip_zeros (rev (list_ascii_of_string (substring (k' - f) f digits))))).

Definition toString (x : number) : string :=
  match x with
  | NaN => "NaN"
  | Infinity s => if s then "-Infinity" else "Infinity"
  | Finite s m e =>
      (if s && negb (m =? 0)%N then "-" else "") ++ exact_decimal m e
  end.

Definition hex_digit (n : N) : string :=
  substring (N.to_nat n) 1 "0123456789abcdef".

Definition dquote : string := String (ascii_of_N 34) "".

Fixpoint quote_chars (s : string) : string :=
  match s with
  | EmptyString => EmptyString
  | String c rest =>
      let n := N_of_ascii c in
      (if (n =? 34)%N then "\" ++ dquote
       else if (n =? 92)%N then "\\"
       else if (n =? 8)%N then "\b"
       else if (n =? 9)%N then "\t"
       else if (n =? 10)%N then "\n"
       else if (n =? 12)%N then "\f"
       else if (n =? 13)%N then "\r"
       else if (n <? 32)%N then "\u00" ++ hex_digit (n / 16) ++ hex_digit (n mod 16)
       else String c EmptyString) ++ quote_chars rest
  end.

Definition quote (s : string) : string := dquote ++ quote_chars s ++ dquote.

Fixpoint stringify_at (gap cur : string) (v : value) : string :=
  let inner := cur ++ gap in
  let wrap (opening closing : string) (items : list string) : string :=
    match items with
    | [] => opening ++ closing
    | _ =>
        if (gap =? "")%string then opening ++ join "," items ++ closing
        else opening ++ newline ++ inner
             ++ join ("," ++ newline ++ inner) items
             ++ newline ++ cur ++ closing
    end in
  match v with
  | VUndefined | VNull => "null"
  | VBool b => if b then "true" else "false"
  | VNum (Finite s m e) => toString (Finite s m e)
  | VNum _ => "null"
  | VStr s => quote s
  | VArr l =>
      wrap "[" "]"
        ((fix elements (l : list value) : list string :=
            match l with
            | [] => []
            | x :: rest => stringify_at gap inner x :: elements rest
            end) l)
  | VObj kvs =>
      wrap "{" "}"
        ((fix members (kvs : list (string * value)) : list string :=
            match kvs with
            | [] => []
            | (k, VUndefined) :: rest => members rest
            | (k, x) :: rest =>
                (quote k ++ (if (gap =? "")%string then ":" else ": ")
                 ++ stringify_at gap inner x) :: members rest
            end) kvs)
  end.

Definition stringify (indent : nat) (v : value) : string :=
  stringify_at (repeat_string " " indent) "" v.

Definition runtime : Runtime :=
  {| Number_toString := toString;
     String_toUpperCase := toUpperCase;
     JSON_stringify := stringify |}.

End Sample.

(** ** The provider interfaces of the source *)

Definition optional (k : string) (o : option value) : list (string * value) :=
  match o with
  | Some v => [(k, v)]
  | None => []
  end.

Definition blank_to_absent (o : option string) : option string :=
  match o with
  | Some EmptyString => None
  | _ => o
  end.

(** What reading an optional field gives. *)
Definition optional_value (o : option value) : value :=
  match o with
  | Some v => v
  | None => VUndefined
  end.

(** How an optional string field is shown: its value, or the
    placeholder when it is absent or empty. *)
Definition shown (o : option string) (placeholder : string) : string :=
  match blank_to_absent o with
  | Some s => s
  | None => placeholder
  end.

(** [interface AlertFeature]: an object whose [properties] holds five
    optional strings. *)
Module AlertFeature.

Record t : Type := mk {
  event : option string;
  areaDesc : option string;
  severity : option string;
  status : option string;
  headline : option string
}.

Definition properties (a : t) : list (string * value) :=
  optional "event" (option_map VStr (event a))
  ++ optional "areaDesc" (option_map VStr (areaDesc a))
  ++ optional "severity" (option_map VStr (severity a))
  ++ optional "status" (option_map VStr (status a))
  ++ optional "headline" (option_map VStr (headline a)).

Definition encode (a : t) : value := VObj [("properties", VObj (properties a))].

(** The same feature with every empty-string field left out. *)
Definition drop_blank (a : t) : t :=
  mk (blank_to_absent (event a)) (blank_to_absent (areaDesc a))
     (blank_to_absent (severity a)) (blank_to_absent (status a))
     (blank_to_absent (headline a)).

End AlertFeature.

(** [interface ForecastPeriod]: six optional fields, [temperature] a
    number and the others strings. *)
Module ForecastPeriod.

Record t : Type := mk {
  name : option string;
  temperature : option number;
  temperatureUnit : option string;
  windSpeed : option string;
  windDirection : option string;
  shortForecast : option string
}.

Definition encode (p : t) : value :=
  VObj (optional "name" (option_map VStr (name p))
        ++ optional "temperature" (option_map VNum (temperature p))
        ++ optional "temperatureUnit" (option_map VStr (temperatureUnit p))
        ++ optional "windSpeed" (option_map VStr (windSpeed p))
        ++ optional "windDirection" (option_map VStr (windDirection p))
        ++ optional "shortForecast" (option_map VStr (shortForecast p))).

Definition with_temperature (x : option number) (p : t) : t :=
  mk (name p) x (temperatureUnit p) (windSpeed p) (windDirection p) (shortForecast p).

End ForecastPeriod.

(** ** Predicates on handler programs *)

(** Every value the program can return satisfies [P]. *)
Fixpoint returns_only {A} (P : A -> Prop) (p : prog A) : Prop :=
  match p with
  | Ret a => P a
  | Throw _ => True
  | Fetch _ k => forall r, returns_only P (k r)
  end.

(** The program returns whatever the world answers. *)
Fixpoint never_throws {A} (p : prog A) : Prop :=
  match p with
  | Ret _ => True
  | Throw _ => False
  | Fetch _ k => forall r, never_throws (k r)
  end.

(** The program issues at most [n] calls whatever the world answers. *)
Fixpoint calls_at_most {A} (n : nat) (p : prog A) {struct p} : Prop :=
  match p with
  | Ret _ | Throw _ => True
  | Fetch _ k =>
      match n with
      | O => False
      | S n' => forall r, calls_at_most n' (k r)
      end
  end.

(** The request a program starts with. *)
Definition first_call {A} (p : prog A) : option request :=
  match p with
  | Fetch rq _ => Some rq
  | _ => None
  end.

(** An envelope of exactly one block, of type text. *)
Definition one_text_block (env : envelope) : Prop :=
  exists s, content env = [ {| type := "text"; text := s |} ].

(** ** The shape of a number printed with a fixed count of decimals *)

Definition is_digit (c : ascii) : bool :=
  let n := N_of_ascii c in ((48 <=? n) && (n <=? 57))%N.

Fixpoint all_digits (s : string) : bool :=
  match s with
  | EmptyString => true
  | String c rest => is_digit c && all_digits rest
  end.

(** An optional minus sign, at least one digit, a point and exactly [f]
    digits. *)
Definition fixed_decimals (f : nat) (s : string) : Prop :=
  exists sign whole frac,
    s = sign ++ whole ++ "." ++ frac
    /\ (sign = "" \/ sign = "-")
    /\ whole <> "" /\ all_digits whole = true
    /\ String.length frac = f /\ all_digits frac = true.

(** ** Example inputs *)

Module Examples.

(** A world in which every call is answered by status [st] and a body
    that decodes to [v]. *)
Definition answering (st : N) (v : value) : world :=
  fun _ _ => Resolved (mkResponse st (Normal (Sample.stringify 0 v)) (Normal v)).

(** The alerts response [{"features":[{}]}]: one feature without
    [properties]. *)
Definition bare_feature : value := VObj [("features", VArr [VObj []])].

(** The points response [{"properties":{}}]: no forecast URL. *)
Definition points_without_forecast : value := VObj [("properties", VObj [])].

Definition points_with_forecast : value :=
  VObj [("properties",
         VObj [("forecast",
                VStr "https://api.weather.gov/gridpoints/TOP/31,80/forecast")])].

(** The period of the specification's example, [windDirection] absent. *)
Definition tonight : ForecastPeriod.t :=
  ForecastPeriod.mk (Some "Tonight") (Some (number_of_nat 40)) (Some "F")
                    (Some "5 mph") None (Some "Clear").

(** The same period with an empty [windSpeed]. *)
Definition tonight_calm : ForecastPeriod.t :=
  ForecastPeriod.mk (Some "Tonight") (Some (number_of_nat 40)) (Some "F")
                    (Some "") None (Some "Clear").

Definition forecast_response (periods : list value) : value :=
  VObj [("properties", VObj [("periods", VArr periods)])].

(** The grid lookup answers with a forecast URL, the forecast request
    with one period. *)
Definition chained : world :=
  fun n _ =>
    match n with
    | O => Resolved (mkResponse 200 (Normal "") (Normal points_with_forecast))
    | _ => Resolved (mkResponse 200 (Normal "")
                       (Normal (forecast_response [ForecastPeriod.encode tonight])))
    end.

(** Topeka, Kansas: 39.0473, -95.6752 as the nearest doubles. *)
Definition topeka_latitude : number := Finite false 5495418929056999 (-47).
Definition topeka_longitude : number := Finite true 6732543672946839 (-46).

End Examples.

(** ** Responses of the declared shapes, and their renderings *)

(** [type UserNotification]. *)
Module UserNotification.

Inductive condition_t : Type := above | below.

Record t : Type := mk {
  id : string;
  session_id : string;
  token : string;
  targetPrice : string;
  condition : condition_t
}.

Definition condition_name (c : condition_t) : string :=
  match c with
  | above => "above"
  | below => "below"
  end.

Definition encode (n : t) : value :=
  VObj [("id", VStr (id n));
        ("session_id", VStr (session_id n));
        ("token", VStr (token n));
        ("targetPrice", VStr (targetPrice n));
        ("condition", VStr (condition_name (condition n)))].

End UserNotification.

(** What [makeNWSRequest] makes of the answer to its call: the decoded
    body of a 2xx response, [null] otherwise. *)
Definition nws_result (answer : fetch_result) : value :=
  match answer with
  | Rejected _ => VNull
  | Resolved r =>
      if ok r
      then match body_json r with
           | Normal v => v
           | Abrupt _ => VNull
           end
      else VNull
  end.

(** [v.k1?.k2]. *)
Definition optional_chain (v : value) (k1 k2 : string) : completion value :=
  (inner <- get_prop v k1 ;; get_prop_opt inner k2)%completion.

(** The text of one alert of the declared shape. *)
Definition render_alert (a : AlertFeature.t) : string :=
  join newline
    [ "Event: " ++ shown (AlertFeature.event a) "Unknown";
      "Area: " ++ shown (AlertFeature.areaDesc a) "Unknown";
      "Severity: " ++ shown (AlertFeature.severity a) "Unknown";
      "Status: " ++ shown (AlertFeature.status a) "Unknown";
      "Headline: " ++ shown (AlertFeature.headline a) "No headline";
      "---" ].

(** How an optional temperature is shown: the number, or [Unknown] when
    it is absent, zero or NaN. *)
Definition shown_temperature {rt : Runtime} (o : option number) : string :=
  match o with
  | Some x => if number_truthy x then Number_toString x else "Unknown"
  | None => "Unknown"
  end.

(** The text of one forecast period of the declared shape. *)
Definition render_period {rt : Runtime} (p : ForecastPeriod.t) : string :=
  join newline
    [ shown (ForecastPeriod.name p) "Unknown" ++ ":";
      "Temperature: " ++ shown_temperature (ForecastPeriod.temperature p) ++ "Â°"
      ++ shown (ForecastPeriod.temperatureUnit p) "F";
      "Wind: " ++ shown (ForecastPeriod.windSpeed p) "Unknown" ++ " "
      ++ shown (ForecastPeriod.windDirection p) "";
      shown (ForecastPeriod.shortForecast p) "No forecast available";
      "---" ].

(** The entry of the notification numbered [number]. *)
Definition notification_entry (number : nat) (n : UserNotification.t) : string :=
  "#" ++ decimal (N.of_nat number)
  ++ " - Token: " ++ UserNotification.token n
  ++ ", Target: " ++ UserNotification.targetPrice n
  ++ ", Condition: " ++ UserNotification.condition_name (UserNotification.condition n).

(** The entries of a list of notifications, the first one numbered
    [first]. *)
Fixpoint notification_entries (first : nat) (l : list UserNotification.t)
  : list string :=
  match l with
  | [] => []
  | n :: rest => notification_entry first n :: notification_entries (S first) rest
  end.

(** The URL get-forecast requests after the grid lookup, given what the
    lookup returned: the forecast value read through
    [properties?.forecast], when the lookup result and that value are
    truthy and the value converts to a string. *)
Definition forecast_target {rt : Runtime} (pointsData : value) : option string :=
  if truthy pointsData
  then match optional_chain pointsData "properties" "forecast" with
       | Normal forecastUrl =>
           if truthy forecastUrl
           then match ToString forecastUrl with
                | Normal u => Some u
                | Abrupt _ => None
                end
           else None
       | Abrupt _ => None
       end
  else None.

(** The number a string of decimal digits denotes; [None] when a
    character is not a digit. *)
Definition read_decimal (s : string) : option N :=
  option_map N.of_uint (NilEmpty.uint_of_string s).

(** A value that is not an array or an object. *)
Definition scalar (v : value) : bool :=
  match v with
  | VArr _ | VObj _ => false
  | _ => true
  end.

Definition alert_field_names : list string :=
  ["event"; "areaDesc"; "severity"; "status"; "headline"].

(** A feature whose [properties] is an object in which each of the five
    fields [formatAlert] prints is absent or a scalar, whatever its type
    and whatever other fields the object has. *)
Definition scalar_feature (feature : value) : Prop :=
  exists props,
    get_prop feature "properties" = Normal (VObj props)
    /\ forall k v, In k alert_field_names -> lookup k props = Some v -> scalar v = true.

(** [text] is the number [x] rounded to four decimals: a minus sign
    exactly when [x] is negative and not zero, then the whole digits
    (without a leading zero, unless the whole part is zero), a point and
    four decimals, where all the digits together denote the integer [n]
    nearest to the magnitude of [x] times 10^4, the larger one when two
    are equally near.  With [x] = [m * 2^e] in magnitude, [n] is nearest
    when [n - 1/2 <= m * 2^e * 10^4 < n + 1/2]; the inequalities are
    cleared of fractions. *)
Definition printed_coordinate (x : number) (text : string) : Prop :=
  exists s m e whole frac n,
    x = Finite s m e
    /\ text = (if s && negb (m =? 0)%N then "-" else "") ++ whole ++ "." ++ frac
    /\ all_digits whole = true
    /\ (whole = "0" \/ exists c rest, whole = String c rest /\ c <> "0"%char)
    /\ String.length frac = 4 /\ all_digits frac = true
    /\ read_decimal (whole ++ frac) = Some n
    /\ (2 * (n * 2 ^ Z.to_N (- e))
         <= 2 * (m * 10 ^ 4 * 2 ^ Z.to_N e) + 2 ^ Z.to_N (- e)
        /\ 2 * (m * 10 ^ 4 * 2 ^ Z.to_N e) + 2 ^ Z.to_N (- e)
           < 2 * (n * 2 ^ Z.to_N (- e)) + 2 * 2 ^ Z.to_N (- e))%N.

Module MoreExamples.

Definition flood : AlertFeature.t :=
  AlertFeature.mk (Some "Flood Warning") (Some "Shawnee, KS") (Some "Severe")
                  (Some "Actual") None.

Definition wind : AlertFeature.t :=
  AlertFeature.mk (Some "Wind Advisory") None (Some "") (Some "Actual")
                  (Some "Wind Advisory until 6 PM").

Definition alerts_response (alerts : list AlertFeature.t) : value :=
  VObj [("type", VStr "FeatureCollection");
        ("features", VArr (map AlertFeature.encode alerts))].

Definition eth_alert : UserNotification.t :=
  UserNotification.mk "1" "abc" "ETH" "1928.23" UserNotification.above.

Definition btc_alert : UserNotification.t :=
  UserNotification.mk "2" "abc" "BTC" "60000" UserNotification.below.

Definition notifications_response (l : list UserNotification.t) : value :=
  VObj [("userNotifications", VArr (map UserNotification.encode l))].

Definition timeout : js_error := TypeError "fetch failed".

(** Every call is rejected. *)
Definition offline : world := fun _ _ => Rejected timeout.

(** The grid lookup answers with a forecast URL, the forecast request is
    answered by [second]. *)
Definition then_answering (second : fetch_result) : world :=
  fun n _ =>
    match n with
    | O => Resolved (mkResponse 200 (Normal "") (Normal Examples.points_with_forecast))
    | _ => second
    end.

Definition forecast_url : string :=
  "https://api.weather.gov/gridpoints/TOP/31,80/forecast".

Definition prices : value :=
  VObj [("latestTokenPrices",
         VObj [("ETH", VNum (Finite false 3857 (-1))); ("BTC", VNum (Finite false 60000 0))])].

End MoreExamples.

(** * Properties *)

(** ** Reasoning about handler programs *)

Lemma calls_at_most_weaken {A} (n m : nat) (p : prog A) :
  n <= m -> calls_at_most n p -> calls_at_most m p.
Proof.
  revert n m. induction p as [a | e | rq k IH]; intros n m Hle Hp; simpl in *; auto.
  destruct n as [| n]; [contradiction |].
  destruct m as [| m]; [lia |].
  intros r. apply (IH r n m); [lia | apply Hp].
Qed.

Section ProgramLogic.

Context {A B : Type}.

Lemma returns_only_bind (P : B -> Prop) (p : prog A) (f : A -> prog B) :
  (forall a, returns_only P (f a)) -> returns_only P (bind p f).
Proof.
  intros H. induction p as [a | e | rq k IH]; simpl; auto.
Qed.

Lemma returns_only_try_catch (P : A -> Prop) (p : prog A) (h : js_error -> prog A) :
  returns_only P p -> (forall e, returns_only P (h e)) ->
  returns_only P (try_catch p h).
Proof.
  intros Hp Hh. induction p as [a | e | rq k IH]; simpl in *; auto.
Qed.

Lemma never_throws_try_catch (p : prog A) (h : js_error -> prog A) :
  (forall e, never_throws (h e)) -> never_throws (try_catch p h).
Proof.
  intros Hh. induction p as [a | e | rq k IH]; simpl; auto.
Qed.

Lemma calls_at_most_bind (n m : nat) (p : prog A) (f : A -> prog B) :
  calls_at_most n p -> (forall a, calls_at_most m (f a)) ->
  calls_at_most (n + m) (bind p f).
Proof.
  revert n. induction p as [a | e | rq k IH]; intros n Hp Hf; simpl in *; auto.
  - apply calls_at_most_weaken with (n := m); [lia | apply Hf].
  - destruct n as [| n]; [contradiction |]. simpl.
    intros r. apply IH; auto.
Qed.

Lemma calls_at_most_try_catch (n m : nat) (p : prog A) (h : js_error -> prog A) :
  calls_at_most n p -> (forall e, calls_at_most m (h e)) ->
  calls_at_most (n + m) (try_catch p h).
Proof.
  revert n. induction p as [a | e | rq k IH]; intros n Hp Hh; simpl in *; auto.
  - apply calls_at_most_weaken with (n := m); [lia | apply Hh].
  - destruct n as [| n]; [contradiction |]. simpl.
    intros r. apply IH; auto.
Qed.

Lemma calls_at_most_lift (c : completion A) : calls_at_most 0 (lift c).
Proof. destruct c; exact I. Qed.

Lemma returns_only_sound (P : A -> Prop) (p : prog A) (w : world) (n : nat) (a : A) :
  returns_only P p -> snd (run p w n) = Returned a -> P a.
Proof.
  revert n. induction p as [a' | e | rq k IH]; intros n Hp Hrun; simpl in *.
  - injection Hrun as <-. exact Hp.
  - discriminate.
  - destruct (run (k (w n rq)) w (S n)) as [calls o] eqn:E.
    apply (IH (w n rq) (S n)); [apply Hp | rewrite E; exact Hrun].
Qed.

Lemma never_throws_sound (p : prog A) (w : world) (n : nat) :
  never_throws p -> exists a, snd (run p w n) = Returned a.
Proof.
  revert n. induction p as [a | e | rq k IH]; intros n Hp; simpl in *.
  - eauto.
  - contradiction.
  - destruct (IH (w n rq) (S n) (Hp _)) as [a Ha].
    destruct (run (k (w n rq)) w (S n)) as [calls o]. eauto.
Qed.

Lemma calls_at_most_sound (m : nat) (p : prog A) (w : world) (n : nat) :
  calls_at_most m p -> List.length (fst (run p w n)) <= m.
Proof.
  revert m n. induction p as [a | e | rq k IH]; intros m n Hp; simpl in *; try lia.
  destruct m as [| m]; [contradiction |].
  specialize (IH (w n rq) m (S n) (Hp _)).
  destruct (run (k (w n rq)) w (S n)) as [calls o]. simpl in *. lia.
Qed.

Lemma first_call_sound (p : prog A) (rq : request) (w : world) (n : nat) :
  first_call p = Some rq -> exists rest, fst (run p w n) = rq :: rest.
Proof.
  destruct p as [a | e | rq' k]; simpl; try discriminate.
  intros [= ->]. destruct (run (k (w n rq)) w (S n)) as [calls o].
  exists calls. reflexivity.
Qed.

End ProgramLogic.

(** ** The handlers as programs *)

Section Handlers.

Context {rt : Runtime}.

Lemma returns_only_lift_bind {A B} (P : B -> Prop) (c : completion A) (f : A -> prog B) :
  (forall a, returns_only P (f a)) -> returns_only P (bind (lift c) f).
Proof. intros H. apply returns_only_bind, H. Qed.

Lemma calls_at_most_lift_bind {A B} (n : nat) (c : completion A) (f : A -> prog B) :
  (forall a, calls_at_most n (f a)) -> calls_at_most n (bind (lift c) f).
Proof. intros H. destruct c; simpl; auto. Qed.

Lemma calls_at_most_fetch_bind {B} (n : nat) (rq : request) (f : Response -> prog B) :
  (forall resp, calls_at_most n (f resp)) -> calls_at_most (S n) (bind (fetch rq) f).
Proof. intros H. simpl. intros [e | resp]; simpl; auto. Qed.

Lemma calls_at_most_guarded {A} (n : nat) (p : prog A) (h : js_error -> prog A) :
  calls_at_most n p -> (forall e, calls_at_most 0 (h e)) ->
  calls_at_most n (try_catch p h).
Proof.
  intros Hp Hh. rewrite <- (Nat.add_0_r n). apply calls_at_most_try_catch; assumption.
Qed.

Ltac returns_step :=
  lazymatch goal with
  | |- returns_only _ (bind _ _) => apply returns_only_bind; intros ?
  | |- returns_only _ (try_catch _ _) => apply returns_only_try_catch; [| intros ?]
  | |- returns_only _ (if ?c then _ else _) => destruct c
  | |- returns_only _ (Ret (text_content _)) => simpl; eexists; reflexivity
  | |- returns_only _ (Throw _) => exact I
  | |- returns_only _ (lift ?c) => destruct c
  | |- returns_only _ (let _ := _ in _) => cbv zeta
  end.

Ltac calls_step :=
  lazymatch goal with
  | |- calls_at_most _ (bind (lift _) _) => apply calls_at_most_lift_bind; intros ?
  | |- calls_at_most _ (bind (fetch _) _) => apply calls_at_most_fetch_bind; intros ?
  | |- calls_at_most 0 (bind _ _) =>
      change 0 with (0 + 0); apply calls_at_most_bind; [| intros ?]
  | |- calls_at_most _ (try_catch _ _) => apply calls_at_most_guarded; [| intros ?]
  | |- calls_at_most _ (if ?c then _ else _) => destruct c
  | |- calls_at_most _ (Ret _) => exact I
  | |- calls_at_most _ (Throw _) => exact I
  | |- calls_at_most _ (lift ?c) => apply calls_at_most_weaken with (n := 0);
                                     [lia | apply calls_at_most_lift]
  | |- calls_at_most _ (let _ := _ in _) => cbv zeta
  end.

Lemma handler_returns_one_text_block (c : tool_call) :
  returns_only one_text_block (handler c).
Proof.
  destruct c; cbv [handler get_alerts get_forecast register_notification
                   get_user_notifications get_latest_token_price];
    repeat returns_step.
Qed.

Lemma makeNWSRequest_calls (url : value) : calls_at_most 1 (makeNWSRequest url).
Proof. unfold makeNWSRequest. repeat calls_step. Qed.

Lemma makeNWSRequest_never_throws (url : value) : never_throws (makeNWSRequest url).
Proof. unfold makeNWSRequest. apply never_throws_try_catch. intros e. exact I. Qed.

Lemma get_alerts_calls (state : string) : calls_at_most 1 (get_alerts state).
Proof.
  unfold get_alerts. cbv zeta.
  change 1 with (1 + 0). apply calls_at_most_bind; [apply makeNWSRequest_calls |].
  intros alertsData. repeat calls_step.
Qed.

Lemma get_forecast_calls (latitude longitude : number) :
  calls_at_most 2 (get_forecast latitude longitude).
Proof.
  unfold get_forecast.
  change 2 with (1 + 1). apply calls_at_most_bind; [apply makeNWSRequest_calls |].
  intros pointsData. repeat calls_step.
  change 1 with (1 + 0). apply calls_at_most_bind; [apply makeNWSRequest_calls |].
  intros forecastData. repeat calls_step.
Qed.

Lemma local_handlers_call_once :
  (forall session_id token targetPrice,
      calls_at_most 1 (register_notification session_id token targetPrice))
  /\ (forall session_id, calls_at_most 1 (get_user_notifications session_id))
  /\ calls_at_most 1 get_latest_token_price.
Proof.
  repeat split; intros;
    cbv [register_notification get_user_notifications get_latest_token_price];
    repeat calls_step.
Qed.

(** The three handlers of the local provider wrap their whole body in
    [try]/[catch] and return from the catch block. *)
Lemma local_handlers_never_throw :
  (forall session_id token targetPrice,
      never_throws (register_notification session_id token targetPrice))
  /\ (forall session_id, never_throws (get_user_notifications session_id))
  /\ never_throws get_latest_token_price.
Proof.
  repeat split; intros;
    cbv [register_notification get_user_notifications get_latest_token_price];
    apply never_throws_try_catch; intros e; exact I.
Qed.

Lemma handler_first_call (c : tool_call) : exists rq, first_call (handler c) = Some rq.
Proof. destruct c; eexists; reflexivity. Qed.

End Handlers.

(** ** Errors escaping a handler *)

(** C1, at the input where it fails.  get-alerts is invoked with state
    [CA] (any state does) and the weather provider answers 200 with the
    body [{"features":[{}]}].  [formatAlert] reads [props.event] on the
    [undefined] [properties] of the feature; nothing in the handler
    catches the TypeError, so the invocation ends with a thrown error and
    no text block. *)
Theorem get_alerts_throws_on_feature_without_properties
  {rt : Runtime} (state : string) :
  outcome_of (handler (GetAlerts state))
             (Examples.answering 200 Examples.bare_feature)
  = Threw (TypeError "Cannot read properties of undefined (reading 'event')").
Proof. reflexivity. Qed.

(** get-forecast lets an error escape in the same way: a forecast
    response whose [periods] holds [null]. *)
Lemma get_forecast_throws_on_null_period {rt : Runtime} (latitude longitude : number) :
  outcome_of (handler (GetForecast latitude longitude))
             (fun n _ =>
                match n with
                | O => Resolved (mkResponse 200 (Normal "")
                                   (Normal Examples.points_with_forecast))
                | _ => Resolved (mkResponse 200 (Normal "")
                                   (Normal (Examples.forecast_response [VNull])))
                end)
  = Threw (TypeError "Cannot read properties of null (reading 'name')").
Proof. reflexivity. Qed.

(** The handlers of the local provider do return for every answer of
    the world. *)
Lemma local_handlers_always_return {rt : Runtime} (c : tool_call) (w : world) :
  match c with
  | GetAlerts _ | GetForecast _ _ => True
  | _ => exists env, outcome_of (handler c) w = Returned env
  end.
Proof.
  destruct local_handlers_never_throw as (Hr & Hu & Hp).
  destruct c; try exact I; apply never_throws_sound; cbn [handler]; auto.
Qed.

(** ** Outbound calls per invocation *)

(** C2 as stated fails: get-forecast issues two calls when the grid
    lookup yields a forecast URL. *)
Lemma one_call_per_invocation_fails :
  ~ (forall (rt : Runtime) (c : tool_call) (w : world),
        List.length (calls_of (handler c) w) <= 1).
Proof.
  intros H.
  specialize (H Sample.runtime
                (GetForecast Examples.topeka_latitude Examples.topeka_longitude)
                Examples.chained).
  vm_compute in H. lia.
Qed.

(** C2, amended.  Every invocation issues at least one and at most two
    outbound calls (invocations of [fetch]), and every tool other than
    get-forecast issues exactly one. *)
Theorem calls_per_invocation {rt : Runtime} (c : tool_call) (w : world) :
  1 <= List.length (calls_of (handler c) w) <= 2
  /\ match c with
     | GetForecast _ _ => True
     | _ => List.length (calls_of (handler c) w) = 1
     end.
Proof.
  assert (Hlow : 1 <= List.length (calls_of (handler c) w)).
  { destruct (handler_first_call c) as [rq Hrq].
    destruct (first_call_sound _ _ w 0 Hrq) as [rest Hrest].
    unfold calls_of. rewrite Hrest. simpl. lia. }
  assert (Hhigh : List.length (calls_of (handler c) w)
                  <= match c with GetForecast _ _ => 2 | _ => 1 end).
  { destruct local_handlers_call_once as (Hr & Hu & Hp).
    unfold calls_of.
    destruct c; apply calls_at_most_sound; cbn [handler];
      auto using get_alerts_calls, get_forecast_calls. }
  destruct c; split; try exact I; lia.
Qed.

(** ** The envelope *)

(** C5.  Whatever the tool, its arguments and the answers of the world,
    a response that a handler returns has exactly one content block, and
    that block has type text. *)
Theorem every_response_is_one_text_block
  {rt : Runtime} (c : tool_call) (w : world) (env : envelope) :
  outcome_of (handler c) w = Returned env ->
  exists s, content env = [ {| type := "text"; text := s |} ].
Proof.
  intros H.
  exact (returns_only_sound one_text_block _ w 0 env
           (handler_returns_one_text_block c) H).
Qed.

Lemma every_response_is_one_text_block_witness :
  outcome_of (handler (rt := Sample.runtime) (GetAlerts "ca"))
             (Examples.answering 200 (VObj []))
  = Returned (text_content "No active alerts for CA")
  /\ exists s, content (text_content "No active alerts for CA")
               = [ {| type := "text"; text := s |} ].
Proof.
  split; [reflexivity |].
  apply (every_response_is_one_text_block (rt := Sample.runtime)
           (GetAlerts "ca") (Examples.answering 200 (VObj []))).
  reflexivity.
Defined.

(** ** register-notification *)

(** C3.  Whatever status the POST is answered with, the handler returns
    the success text with the body of the response appended as it was
    read: the status plays no part. *)
Theorem register_notification_embeds_body
  {rt : Runtime} (session_id token targetPrice : string) (w : world)
  (st : N) (body : string) (decoded : completion value) :
  w 0 (notification_request session_id token targetPrice)
  = Resolved (mkResponse st (Normal body) decoded) ->
  run (register_notification session_id token targetPrice) w 0
  = ([notification_request session_id token targetPrice],
     Returned (text_content
                 ("âœ… Price alert registered successfully:" ++ newline ++ newline
                  ++ body))).
Proof.
  intros H. unfold register_notification.
  cbn [run try_catch bind fetch]. rewrite H. reflexivity.
Qed.

Lemma register_notification_embeds_body_witness :
  let failure := VObj [("error", VStr "quota exceeded")] in
  let w := Examples.answering 500 failure in
  w 0 (notification_request (rt := Sample.runtime) "abc" "ETH" "1928.23")
  = Resolved (mkResponse 500 (Normal (Sample.stringify 0 failure)) (Normal failure))
  /\ run (register_notification (rt := Sample.runtime) "abc" "ETH" "1928.23") w 0
     = ([notification_request (rt := Sample.runtime) "abc" "ETH" "1928.23"],
        Returned (text_content
                    ("âœ… Price alert registered successfully:" ++ newline ++ newline
                     ++ Sample.stringify 0 failure))).
Proof.
  split; [reflexivity |].
  apply (register_notification_embeds_body (rt := Sample.runtime)
           "abc" "ETH" "1928.23"
           (Examples.answering 500 (VObj [("error", VStr "quota exceeded")]))
           500 (Sample.stringify 0 (VObj [("error", VStr "quota exceeded")]))
           (Normal (VObj [("error", VStr "quota exceeded")]))).
  reflexivity.
Defined.

(** ** get-forecast without a forecast URL *)

(** C4.  When the grid lookup is answered with a decoded response in
    which [properties?.forecast] is absent, get-forecast issues no second
    call and returns the one text block saying that the forecast URL could
    not be obtained. *)
Theorem missing_forecast_url_short_circuits
  {rt : Runtime} (latitude longitude : number) (w : world)
  (r : Response) (pointsData properties : value) :
  w 0 (nws_request (pointsUrl latitude longitude)) = Resolved r ->
  ok r = true ->
  body_json r = Normal pointsData ->
  truthy pointsData = true ->
  get_prop pointsData "properties" = Normal properties ->
  get_prop_opt properties "forecast" = Normal VUndefined ->
  run (get_forecast latitude longitude) w 0
  = ([nws_request (pointsUrl latitude longitude)],
     Returned (text_content "Failed to get forecast URL from grid point data")).
Proof.
  intros Hw Hok Hjson Htruthy Hprops Hforecast.
  unfold get_forecast, makeNWSRequest.
  cbn [run try_catch bind fetch lift ToString]. rewrite Hw.
  cbn [run try_catch bind lift]. rewrite Hok.
  cbn [negb run try_catch bind lift]. rewrite Hjson.
  cbn [run try_catch bind lift]. rewrite Htruthy.
  cbn [negb run try_catch bind lift]. rewrite Hprops.
  cbn [run try_catch bind lift]. rewrite Hforecast.
  reflexivity.
Qed.

Lemma missing_forecast_url_short_circuits_witness :
  let w := Examples.answering 200 Examples.points_without_forecast in
  let r := mkResponse 200 (Normal (Sample.stringify 0 Examples.points_without_forecast))
                      (Normal Examples.points_without_forecast) in
  let latitude := Examples.topeka_latitude in
  let longitude := Examples.topeka_longitude in
  w 0 (nws_request (pointsUrl (rt := Sample.runtime) latitude longitude)) = Resolved r
  /\ ok r = true
  /\ body_json r = Normal Examples.points_without_forecast
  /\ truthy Examples.points_without_forecast = true
  /\ get_prop Examples.points_without_forecast "properties" = Normal (VObj [])
  /\ get_prop_opt (VObj []) "forecast" = Normal VUndefined
  /\ run (get_forecast (rt := Sample.runtime) latitude longitude) w 0
     = ([nws_request (pointsUrl (rt := Sample.runtime) latitude longitude)],
        Returned (text_content "Failed to get forecast URL from grid point data")).
Proof.
  repeat (split; [reflexivity |]).
  apply (missing_forecast_url_short_circuits (rt := Sample.runtime)
           Examples.topeka_latitude Examples.topeka_longitude
           (Examples.answering 200 Examples.points_without_forecast)
           (mkResponse 200
              (Normal (Sample.stringify 0 Examples.points_without_forecast))
              (Normal Examples.points_without_forecast))
           Examples.points_without_forecast (VObj []));
    reflexivity.
Defined.

(** ** get-user-notifications without notifications *)

(** C9.  When the notification service answers with a decoded response
    whose [userNotifications] is absent or an empty list, the handler
    returns the single message naming the session, and no entry lines. *)
Theorem no_notifications_message
  {rt : Runtime} (session_id : string) (w : world)
  (r : Response) (data notifications : value) :
  w 0 (user_notifications_request session_id) = Resolved r ->
  body_json r = Normal data ->
  get_prop data "userNotifications" = Normal notifications ->
  notifications = VUndefined \/ notifications = VArr [] ->
  run (get_user_notifications session_id) w 0
  = ([user_notifications_request session_id],
     Returned (text_content
                 ("â„¹ï¸ No notifications found for session: " ++ session_id))).
Proof.
  intros Hw Hjson Hget Hnone.
  unfold get_user_notifications.
  cbn [run try_catch bind fetch]. rewrite Hw.
  cbn [run try_catch bind lift]. rewrite Hjson.
  cbn [run try_catch bind lift]. rewrite Hget.
  destruct Hnone as [-> | ->]; reflexivity.
Qed.

Lemma no_notifications_message_witness :
  let data := VObj [("userNotifications", VArr [])] in
  let w := Examples.answering 200 data in
  let r := mkResponse 200 (Normal (Sample.stringify 0 data)) (Normal data) in
  w 0 (user_notifications_request "abc") = Resolved r
  /\ body_json r = Normal data
  /\ get_prop data "userNotifications" = Normal (VArr [])
  /\ (VArr [] = VUndefined \/ VArr [] = VArr [])
  /\ run (get_user_notifications (rt := Sample.runtime) "abc") w 0
     = ([user_notifications_request "abc"],
        Returned (text_content ("â„¹ï¸ No notifications found for session: abc"))).
Proof.
  repeat (split; [reflexivity |]).
  split; [right; reflexivity |].
  apply (no_notifications_message (rt := Sample.runtime) "abc"
           (Examples.answering 200 (VObj [("userNotifications", VArr [])]))
           (mkResponse 200
              (Normal (Sample.stringify 0 (VObj [("userNotifications", VArr [])])))
              (Normal (VObj [("userNotifications", VArr [])])))
           (VObj [("userNotifications", VArr [])]) (VArr []));
    try reflexivity.
  right; reflexivity.
Defined.

(** ** Formatting *)

Lemma subst_or_absent {rt : Runtime} (placeholder : string) :
  subst_or VUndefined placeholder = Normal placeholder.
Proof. reflexivity. Qed.

Lemma subst_or_string {rt : Runtime} (o : option string) (placeholder : string) :
  subst_or (optional_value (option_map VStr o)) placeholder
  = Normal (shown o placeholder).
Proof. destruct o as [[| c s] |]; reflexivity. Qed.

Lemma subst_or_zero {rt : Runtime} (s : bool) (e : Z) (placeholder : string) :
  subst_or (VNum (Finite s 0 e)) placeholder = Normal placeholder.
Proof. reflexivity. Qed.

Lemma alert_fields (a : AlertFeature.t) :
  get_prop (AlertFeature.encode a) "properties"
  = Normal (VObj (AlertFeature.properties a))
  /\ lookup "event" (AlertFeature.properties a)
     = option_map VStr (AlertFeature.event a)
  /\ lookup "areaDesc" (AlertFeature.properties a)
     = option_map VStr (AlertFeature.areaDesc a)
  /\ lookup "severity" (AlertFeature.properties a)
     = option_map VStr (AlertFeature.severity a)
  /\ lookup "status" (AlertFeature.properties a)
     = option_map VStr (AlertFeature.status a)
  /\ lookup "headline" (AlertFeature.properties a)
     = option_map VStr (AlertFeature.headline a).
Proof.
  destruct a as [[e |] [ar |] [sv |] [st |] [h |]]; repeat split; reflexivity.
Qed.

Lemma get_prop_object (kvs : list (string * value)) (k : string) :
  get_prop (VObj kvs) k = Normal (optional_value (lookup k kvs)).
Proof. reflexivity. Qed.

(** [formatAlert] on a feature of the declared shape. *)
Lemma alert_lines_encode {rt : Runtime} (a : AlertFeature.t) :
  alert_lines (AlertFeature.encode a)
  = Normal [ "Event: " ++ shown (AlertFeature.event a) "Unknown";
             "Area: " ++ shown (AlertFeature.areaDesc a) "Unknown";
             "Severity: " ++ shown (AlertFeature.severity a) "Unknown";
             "Status: " ++ shown (AlertFeature.status a) "Unknown";
             "Headline: " ++ shown (AlertFeature.headline a) "No headline";
             "---" ].
Proof.
  destruct (alert_fields a) as (Hp & He & Har & Hsv & Hst & Hh).
  unfold alert_lines. rewrite Hp. cbn [cbind].
  rewrite !get_prop_object, He, Har, Hsv, Hst, Hh. cbn [cbind].
  rewrite !subst_or_string. reflexivity.
Qed.

Lemma period_fields (p : ForecastPeriod.t) :
  get_prop (ForecastPeriod.encode p) "name"
  = Normal (optional_value (option_map VStr (ForecastPeriod.name p)))
  /\ get_prop (ForecastPeriod.encode p) "temperature"
     = Normal (optional_value (option_map VNum (ForecastPeriod.temperature p)))
  /\ get_prop (ForecastPeriod.encode p) "temperatureUnit"
     = Normal (optional_value (option_map VStr (ForecastPeriod.temperatureUnit p)))
  /\ get_prop (ForecastPeriod.encode p) "windSpeed"
     = Normal (optional_value (option_map VStr (ForecastPeriod.windSpeed p)))
  /\ get_prop (ForecastPeriod.encode p) "windDirection"
     = Normal (optional_value (option_map VStr (ForecastPeriod.windDirection p)))
  /\ get_prop (ForecastPeriod.encode p) "shortForecast"
     = Normal (optional_value (option_map VStr (ForecastPeriod.shortForecast p))).
Proof.
  destruct p as [[n |] [t |] [u |] [ws |] [wd |] [sf |]]; repeat split; reflexivity.
Qed.

(** The callback of [periods.map] on a period of the declared shape:
    only the temperature substitution is left as the code computes it. *)
Lemma period_lines_encode {rt : Runtime} (p : ForecastPeriod.t) :
  period_lines (ForecastPeriod.encode p)
  = (temperature <-
       subst_or (optional_value (option_map VNum (ForecastPeriod.temperature p)))
                "Unknown" ;;
     Normal [ shown (ForecastPeriod.name p) "Unknown" ++ ":";
              "Temperature: " ++ temperature ++ "Â°"
              ++ shown (ForecastPeriod.temperatureUnit p) "F";
              "Wind: " ++ shown (ForecastPeriod.windSpeed p) "Unknown" ++ " "
              ++ shown (ForecastPeriod.windDirection p) "";
              shown (ForecastPeriod.shortForecast p) "No forecast available";
              "---" ])%completion.
Proof.
  destruct (period_fields p) as (Hn & Ht & Hu & Hws & Hwd & Hsf).
  unfold period_lines. rewrite Hn, Ht, Hu, Hws, Hwd, Hsf. cbn [cbind].
  rewrite !subst_or_string. cbn [cbind].
  destruct (subst_or _ "Unknown"); reflexivity.
Qed.

Lemma subst_or_number {rt : Runtime} (o : option number) (placeholder : string) :
  exists s, subst_or (optional_value (option_map VNum o)) placeholder = Normal s.
Proof.
  destruct o as [x |]; [| eexists; reflexivity].
  unfold subst_or, or_else. cbn [optional_value option_map].
  destruct (truthy (VNum x)); eexists; reflexivity.
Qed.

(** C6.  A feature whose [properties] object has none of the five
    fields formats to the six lines [Event: Unknown], [Area: Unknown],
    [Severity: Unknown], [Status: Unknown], [Headline: No headline], [---]
    joined by newlines. *)
Theorem formatAlert_all_fields_absent
  {rt : Runtime} (feature : value) (props : list (string * value)) :
  get_prop feature "properties" = Normal (VObj props) ->
  lookup "event" props = None ->
  lookup "areaDesc" props = None ->
  lookup "severity" props = None ->
  lookup "status" props = None ->
  lookup "headline" props = None ->
  formatAlert feature
  = Normal (join newline [ "Event: Unknown"; "Area: Unknown"; "Severity: Unknown";
                           "Status: Unknown"; "Headline: No headline"; "---" ]).
Proof.
  intros Hp He Har Hsv Hst Hh.
  unfold formatAlert, alert_lines. rewrite Hp. cbn [cbind].
  rewrite !get_prop_object, He, Har, Hsv, Hst, Hh. reflexivity.
Qed.

Lemma formatAlert_all_fields_absent_witness :
  let feature := VObj [("properties", VObj [("id", VStr "urn:oid:2.49.0.1.840.0")])] in
  let props := [("id", VStr "urn:oid:2.49.0.1.840.0")] in
  get_prop feature "properties" = Normal (VObj props)
  /\ lookup "event" props = None
  /\ lookup "areaDesc" props = None
  /\ lookup "severity" props = None
  /\ lookup "status" props = None
  /\ lookup "headline" props = None
  /\ formatAlert (rt := Sample.runtime) feature
     = Normal (join newline [ "Event: Unknown"; "Area: Unknown"; "Severity: Unknown";
                              "Status: Unknown"; "Headline: No headline"; "---" ]).
Proof.
  repeat (split; [reflexivity |]).
  apply (formatAlert_all_fields_absent (rt := Sample.runtime)
           (VObj [("properties", VObj [("id", VStr "urn:oid:2.49.0.1.840.0")])])
           [("id", VStr "urn:oid:2.49.0.1.840.0")]);
    reflexivity.
Defined.

(** The period of the specification's example. *)
Example tonight_formats :
  formatPeriod (rt := Sample.runtime) (ForecastPeriod.encode Examples.tonight)
  = Normal (join newline [ "Tonight:"; "Temperature: 40Â°F"; "Wind: 5 mph ";
                           "Clear"; "---" ]).
Proof. reflexivity. Qed.

(** C7 as stated fails: a period whose [windSpeed] is present but empty
    and whose [windDirection] is absent has the wind line
    [Wind: Unknown ], not the (empty) wind speed followed by a space. *)
Lemma wind_line_of_present_speed_fails :
  ~ (forall (p : ForecastPeriod.t) (speed : string),
        ForecastPeriod.windDirection p = None ->
        ForecastPeriod.windSpeed p = Some speed ->
        exists lines,
          period_lines (rt := Sample.runtime) (ForecastPeriod.encode p) = Normal lines
          /\ nth_error lines 2 = Some ("Wind: " ++ speed ++ " ")).
Proof.
  intros H.
  destruct (H Examples.tonight_calm "" eq_refl eq_refl) as (lines & Hlines & Hwind).
  vm_compute in Hlines. injection Hlines as <-.
  vm_compute in Hwind. discriminate Hwind.
Qed.

(** C7, amended.  For a period whose [windDirection] is absent and whose
    [windSpeed] is a non-empty string, the wind line is [Wind: ], the wind
    speed and a single trailing space. *)
Theorem wind_line_without_direction
  {rt : Runtime} (p : ForecastPeriod.t) (speed : string) :
  ForecastPeriod.windDirection p = None ->
  ForecastPeriod.windSpeed p = Some speed ->
  speed <> "" ->
  exists lines,
    period_lines (ForecastPeriod.encode p) = Normal lines
    /\ nth_error lines 2 = Some ("Wind: " ++ speed ++ " ").
Proof.
  intros Hwd Hws Hspeed.
  rewrite period_lines_encode, Hwd, Hws.
  destruct (subst_or_number (ForecastPeriod.temperature p) "Unknown") as [t ->].
  cbn [cbind]. eexists. split; [reflexivity |].
  cbn [nth_error]. destruct speed as [| c speed]; [contradiction |]. reflexivity.
Qed.

Lemma wind_line_without_direction_witness :
  ForecastPeriod.windDirection Examples.tonight = None
  /\ ForecastPeriod.windSpeed Examples.tonight = Some "5 mph"
  /\ "5 mph" <> ""
  /\ exists lines,
       period_lines (rt := Sample.runtime) (ForecastPeriod.encode Examples.tonight)
       = Normal lines
       /\ nth_error lines 2 = Some ("Wind: " ++ "5 mph" ++ " ").
Proof.
  split; [reflexivity |]. split; [reflexivity |]. split; [discriminate |].
  apply (wind_line_without_direction (rt := Sample.runtime) Examples.tonight "5 mph");
    [reflexivity | reflexivity | discriminate].
Defined.

(** C10.  A field that is present but falsy is shown as its placeholder,
    as if it were absent: a feature formats as the feature without its
    empty-string fields does, five empty strings give the five
    placeholders, and a period whose temperature is zero formats as the
    period without a temperature does, its temperature line being
    [Temperature: Unknown] followed by the degree mark and the unit. *)
Theorem falsy_fields_render_as_placeholders {rt : Runtime} :
  (forall a : AlertFeature.t,
      formatAlert (AlertFeature.encode a)
      = formatAlert (AlertFeature.encode (AlertFeature.drop_blank a)))
  /\ formatAlert (AlertFeature.encode
                    (AlertFeature.mk (Some "") (Some "") (Some "") (Some "") (Some "")))
     = Normal (join newline [ "Event: Unknown"; "Area: Unknown"; "Severity: Unknown";
                              "Status: Unknown"; "Headline: No headline"; "---" ])
  /\ (forall (p : ForecastPeriod.t) (s : bool) (e : Z),
         formatPeriod (ForecastPeriod.encode
                         (ForecastPeriod.with_temperature (Some (Finite s 0 e)) p))
         = formatPeriod (ForecastPeriod.encode
                           (ForecastPeriod.with_temperature None p)))
  /\ (forall (p : ForecastPeriod.t) (s : bool) (e : Z),
         exists lines,
           period_lines (ForecastPeriod.encode
                           (ForecastPeriod.with_temperature (Some (Finite s 0 e)) p))
           = Normal lines
           /\ nth_error lines 1
              = Some ("Temperature: UnknownÂ°"
                      ++ shown (ForecastPeriod.temperatureUnit p) "F")).
Proof.
  split; [| split; [| split]].
  - intros a. unfold formatAlert. rewrite !alert_lines_encode.
    destruct a as [[[| c1 e] |] [[| c2 ar] |] [[| c3 sv] |] [[| c4 st] |] [[| c5 h] |]];
      reflexivity.
  - reflexivity.
  - intros p s e. unfold formatPeriod. rewrite !period_lines_encode. reflexivity.
  - intros p s e. rewrite period_lines_encode. eexists. split; reflexivity.
Qed.

(** ** Numbers printed with four decimals *)

Lemma length_append (s t : string) :
  String.length (s ++ t) = String.length s + String.length t.
Proof. induction s as [| c s IH]; simpl; [reflexivity | rewrite IH; reflexivity]. Qed.

Lemma substring_length (s : string) (i j : nat) :
  i + j <= String.length s -> String.length (substring i j s) = j.
Proof.
  revert i j. induction s as [| c s IH]; intros i j H; simpl in H.
  - assert (i = 0) by lia. assert (j = 0) by lia. subst. reflexivity.
  - destruct i as [| i]; simpl.
    + destruct j as [| j]; simpl; [reflexivity |].
      f_equal. apply IH. simpl. lia.
    + apply IH. lia.
Qed.

Lemma all_digits_append (s t : string) :
  all_digits s = true -> all_digits t = true -> all_digits (s ++ t) = true.
Proof.
  intros Hs Ht. induction s as [| c s IH]; simpl in *; [exact Ht |].
  apply andb_true_iff in Hs as [Hc Hs]. rewrite Hc. simpl. auto.
Qed.

Lemma all_digits_substring (s : string) (i j : nat) :
  all_digits s = true -> all_digits (substring i j s) = true.
Proof.
  revert i j. induction s as [| c s IH]; intros i j H.
  - destruct i, j; reflexivity.
  - simpl in H. apply andb_true_iff in H as [Hc Hs].
    destruct i as [| i]; simpl.
    + destruct j as [| j]; simpl; [reflexivity |].
      rewrite Hc. simpl. apply IH, Hs.
    + apply IH, Hs.
Qed.

Lemma zeros_are_digits (n : nat) : all_digits (repeat_string "0" n) = true.
Proof. induction n as [| n IH]; simpl; auto. Qed.

Lemma zeros_length (n : nat) : String.length (repeat_string "0" n) = n.
Proof. induction n as [| n IH]; simpl; auto. Qed.

Lemma uint_digits (d : Decimal.uint) : all_digits (NilEmpty.string_of_uint d) = true.
Proof. induction d; simpl; auto. Qed.

Lemma decimal_digits (n : N) : all_digits (decimal n) = true.
Proof. apply uint_digits. Qed.

Lemma decimal_nonempty (n : N) : 1 <= String.length (decimal n).
Proof.
  unfold decimal. destruct n as [| p]; [simpl; lia |].
  pose proof (DecimalPos.Unsigned.to_uint_nonnil p) as H.
  change (N.to_uint (N.pos p)) with (Pos.to_uint p).
  destruct (Pos.to_uint p); simpl; try lia. contradiction.
Qed.

(** The decimal digits read back as the number they print. *)
Lemma decimal_reads_back (n : N) :
  option_map N.of_uint (NilEmpty.uint_of_string (decimal n)) = Some n.
Proof.
  unfold decimal. rewrite NilEmpty.usu. simpl. f_equal.
  apply DecimalN.Unsigned.of_to.
Qed.

Lemma nonempty_of_length (s : string) : 1 <= String.length s -> s <> "".
Proof. destruct s; simpl; [lia | discriminate]. Qed.

(** The digits [toFixed] builds, for a positive count of decimals. *)
Lemma toFixed_digits_shape (f : nat) (n : N) :
  f <> 0 ->
  exists whole frac,
    toFixed_digits f n = whole ++ "." ++ frac
    /\ whole <> "" /\ all_digits whole = true
    /\ String.length frac = f /\ all_digits frac = true.
Proof.
  intros Hf. unfold toFixed_digits.
  destruct (Nat.eqb_spec f 0) as [-> | _]; [contradiction |].
  set (m := if (n =? 0)%N then "0" else decimal n).
  assert (Hm : all_digits m = true).
  { subst m. destruct (n =? 0)%N; [reflexivity | apply decimal_digits]. }
  assert (Hlen : 1 <= String.length m).
  { subst m. destruct (n =? 0)%N; [simpl; lia | apply decimal_nonempty]. }
  set (padded := if (String.length m <=? f)%nat
                 then repeat_string "0" (f + 1 - String.length m) ++ m else m).
  assert (Hp : all_digits padded = true).
  { subst padded. destruct (String.length m <=? f)%nat; [| exact Hm].
    apply all_digits_append; [apply zeros_are_digits | exact Hm]. }
  assert (Hplen : f + 1 <= String.length padded).
  { subst padded. destruct (Nat.leb_spec (String.length m) f) as [Hle | Hgt].
    - rewrite length_append, zeros_length. lia.
    - lia. }
  exists (substring 0 (String.length padded - f) padded),
         (substring (String.length padded - f) f padded).
  split; [reflexivity |].
  split; [apply nonempty_of_length; rewrite substring_length; lia |].
  split; [apply all_digits_substring, Hp |].
  split; [apply substring_length; lia | apply all_digits_substring, Hp].
Qed.

(** The two parts are the padded digits, cut before the last [f]. *)
Lemma substring_split (s : string) (i : nat) :
  i <= String.length s ->
  substring 0 i s ++ substring i (String.length s - i) s = s.
Proof.
  revert i. induction s as [| c s IH]; intros i H; simpl in H.
  - assert (i = 0) by lia. subst. reflexivity.
  - destruct i as [| i]; simpl.
    + f_equal. specialize (IH 0 (Nat.le_0_l _)). simpl in IH.
      rewrite Nat.sub_0_r in IH.
      destruct s; simpl in *; [reflexivity | exact IH].
    + f_equal. apply IH. lia.
Qed.

(** A number within the bounds of a coordinate is finite and below the
    magnitude at which [toFixed] switches to ToString. *)
Lemma in_range_finite (lo hi : Z) (x : number) :
  (- 10 ^ 21 < lo)%Z -> (hi < 10 ^ 21)%Z ->
  in_range lo hi x = true ->
  exists s m e, x = Finite s m e /\ toFixed_large m e = false.
Proof.
  intros Hlo Hhi H. unfold in_range in H. apply andb_true_iff in H as [Hge Hle].
  unfold number_geb, number_leb in *.
  destruct x as [| [|] | s m e]; simpl in Hge, Hle; try discriminate.
  exists s, m, e. split; [reflexivity |].
  assert (H21 : Z.of_N (10 ^ 21) = (10 ^ 21)%Z) by reflexivity.
  unfold toFixed_large. destruct (Z.leb_spec 0 e) as [He | He].
  - apply N.leb_gt.
    assert (Hpow : (0 < 2 ^ e)%Z) by (apply Z.pow_pos_nonneg; lia).
    assert (Heq : Z.of_N (2 ^ Z.to_N e) = (2 ^ e)%Z).
    { rewrite N2Z.inj_pow, Z2N.id by lia. reflexivity. }
    apply N2Z.inj_lt. rewrite N2Z.inj_mul, Heq, H21. clear Heq H21.
    generalize dependent (2 ^ e)%Z. intros P Hge Hle Hpow.
    destruct (Z.compare_spec (signed_mantissa s m * P) lo) as [C1 | C1 | C1];
      try discriminate Hge;
      destruct (Z.compare_spec (signed_mantissa s m * P) hi) as [C2 | C2 | C2];
      try discriminate Hle;
      unfold signed_mantissa in *; destruct s; lia.
  - apply N.leb_gt.
    assert (Hpow : (0 < 2 ^ (- e))%Z) by (apply Z.pow_pos_nonneg; lia).
    assert (Heq : Z.of_N (2 ^ Z.to_N (- e)) = (2 ^ (- e))%Z).
    { rewrite N2Z.inj_pow, Z2N.id by lia. reflexivity. }
    apply N2Z.inj_lt. rewrite N2Z.inj_mul, Heq, H21. clear Heq H21.
    generalize dependent (2 ^ (- e))%Z. intros P Hge Hle Hpow.
    destruct (Z.compare_spec (signed_mantissa s m) (lo * P)) as [C1 | C1 | C1];
      try discriminate Hge;
      destruct (Z.compare_spec (signed_mantissa s m) (hi * P)) as [C2 | C2 | C2];
      try discriminate Hle;
      unfold signed_mantissa in *; destruct s; nia.
Qed.

Lemma toFixed_in_range {rt : Runtime} (lo hi : Z) (x : number) :
  (- 10 ^ 21 < lo)%Z -> (hi < 10 ^ 21)%Z ->
  in_range lo hi x = true -> fixed_decimals 4 (toFixed 4 x).
Proof.
  intros Hlo Hhi H.
  destruct (in_range_finite lo hi x Hlo Hhi H) as (s & m & e & -> & Hsmall).
  unfold toFixed. rewrite Hsmall.
  destruct (toFixed_digits_shape 4 (toFixed_n 4 m e)) as
    (whole & frac & -> & Hne & Hwhole & Hlen & Hfrac); [discriminate |].
  exists (if s && negb (m =? 0)%N then "-" else ""), whole, frac.
  split; [reflexivity |].
  split; [destruct (s && negb (m =? 0)%N); auto |]. auto.
Qed.

(** The integer [toFixed] prints is within half a unit of the last
    decimal of the number's magnitude. *)
Lemma toFixed_n_nearest (f : nat) (m : N) (e : Z) :
  (e < 0)%Z ->
  let d := (2 ^ Z.to_N (- e))%N in
  let n := toFixed_n f m e in
  (2 * (n * d) <= 2 * (m * 10 ^ N.of_nat f) + d
   /\ 2 * (m * 10 ^ N.of_nat f) + d < 2 * (n * d) + 2 * d)%N.
Proof.
  intros He d n. subst n. unfold toFixed_n.
  destruct (Z.leb_spec 0 e) as [H | _]; [lia |].
  fold d. set (a := (2 * (m * 10 ^ N.of_nat f) + d)%N).
  assert (Hd : (2 * d <> 0)%N).
  { subst d. pose proof (N.pow_nonzero 2 (Z.to_N (- e))). lia. }
  pose proof (N.div_mod a (2 * d) Hd) as Hdiv.
  pose proof (N.mod_lt a (2 * d) Hd) as Hmod.
  generalize dependent (a / (2 * d))%N. generalize dependent (a mod (2 * d))%N.
  clearbody a d. intros r Hr q Hq. subst a. lia.
Qed.

Example topeka_points_url :
  pointsUrl (rt := Sample.runtime) Examples.topeka_latitude Examples.topeka_longitude
  = "https://api.weather.gov/points/39.0473,-95.6752".
Proof. vm_compute. reflexivity. Qed.

(** * Further properties of the handlers *)

(** ** The weather request helper *)

Lemma run_after_nws_value {rt : Runtime} {B : Type}
  (url : value) (f : value -> prog B) (w : world) (n : nat) :
  run (bind (makeNWSRequest url) f) w n
  = match ToString url with
    | Normal u =>
        let (calls, o) := run (f (nws_result (w n (nws_request u)))) w (S n) in
        (nws_request u :: calls, o)
    | Abrupt _ => run (f VNull) w n
    end.
Proof.
  unfold makeNWSRequest. destruct (ToString url) as [u | e]; [| reflexivity].
  cbn [try_catch bind lift fetch run].
  destruct (w n (nws_request u)) as [e | r]; [reflexivity |].
  cbn [try_catch bind lift nws_result]. destruct (ok r); [| reflexivity].
  cbn [negb]. destruct (body_json r); reflexivity.
Qed.

Lemma run_after_nws {rt : Runtime} {B : Type}
  (u : string) (f : value -> prog B) (w : world) (n : nat) :
  run (bind (makeNWSRequest (VStr u)) f) w n
  = let (calls, o) := run (f (nws_result (w n (nws_request u)))) w (S n) in
    (nws_request u :: calls, o).
Proof. apply (run_after_nws_value (VStr u)). Qed.

(** X1.  [makeNWSRequest] on a URL string issues the one GET with the
    User-Agent and Accept headers and never throws: it returns the decoded
    body of a 2xx answer, and [null] when the fetch is rejected, the
    status is outside 200..299 or the body does not decode. *)
Theorem makeNWSRequest_returns_body_or_null
  {rt : Runtime} (u : string) (w : world) (n : nat) :
  run (makeNWSRequest (VStr u)) w n
  = ([mkRequest "GET" u
        [("User-Agent", "weather-app/1.0"); ("Accept", "application/geo+json")] None],
     Returned match w n (nws_request u) with
              | Rejected _ => VNull
              | Resolved r =>
                  if ((200 <=? status r) && (status r <=? 299))%N
                  then match body_json r with
                       | Normal v => v
                       | Abrupt _ => VNull
                       end
                  else VNull
              end).
Proof.
  unfold makeNWSRequest. cbn [try_catch bind lift fetch run ToString].
  destruct (w n (nws_request u)) as [e | r]; [reflexivity |].
  cbn [try_catch bind lift]. unfold ok.
  destruct ((200 <=? status r) && (status r <=? 299))%N; [| reflexivity].
  cbn [negb]. destruct (body_json r); reflexivity.
Qed.

(** ** get-alerts *)

Lemma formatAlert_encode {rt : Runtime} (a : AlertFeature.t) :
  formatAlert (AlertFeature.encode a) = Normal (render_alert a).
Proof. unfold formatAlert. rewrite alert_lines_encode. reflexivity. Qed.

Lemma map_alerts {rt : Runtime} (alerts : list AlertFeature.t) (i : nat) :
  map_from (fun feature (_ : nat) => formatAlert feature)
           (map AlertFeature.encode alerts) i
  = Normal (map render_alert alerts).
Proof.
  revert i. induction alerts as [| a alerts IH]; intros i; [reflexivity |].
  cbn [map map_from]. rewrite formatAlert_encode. cbn [cbind].
  rewrite IH. reflexivity.
Qed.

Lemma length_of_nonempty_is_not_zero (x : value) (l : list value) :
  strict_equals_zero (VNum (number_of_nat (List.length (x :: l)))) = false.
Proof. reflexivity. Qed.

(** X2.  When the alerts request gives no usable data (the fetch is
    rejected, the status is outside 200..299, the body does not decode, or
    it decodes to a falsy value), get-alerts reports the failure in its one
    text block. *)
Theorem get_alerts_reports_failure {rt : Runtime} (state : string) (w : world) :
  truthy (nws_result
            (w 0 (nws_request (NWS_API_BASE ++ "/alerts?area="
                               ++ String_toUpperCase state)))) = false ->
  run (get_alerts state) w 0
  = ([nws_request (NWS_API_BASE ++ "/alerts?area=" ++ String_toUpperCase state)],
     Returned (text_content "Failed to retrieve alerts data")).
Proof.
  intros H. unfold get_alerts. cbv zeta. rewrite run_after_nws, H. reflexivity.
Qed.

Lemma get_alerts_reports_failure_witness :
  truthy (nws_result
            (Examples.answering 503 (VObj [])
               0 (nws_request (NWS_API_BASE ++ "/alerts?area="
                               ++ String_toUpperCase (Runtime := Sample.runtime) "ks"))))
  = false
  /\ run (get_alerts (rt := Sample.runtime) "ks") (Examples.answering 503 (VObj [])) 0
     = ([nws_request "https://api.weather.gov/alerts?area=KS"],
        Returned (text_content "Failed to retrieve alerts data")).
Proof.
  split; [reflexivity |].
  apply (get_alerts_reports_failure (rt := Sample.runtime) "ks"
           (Examples.answering 503 (VObj []))).
  reflexivity.
Defined.

(** X3.  When the decoded response has no features (the [features] field is
    absent, falsy or an empty list), get-alerts says that the upper-cased
    state has no active alerts. *)
Theorem get_alerts_no_active_alerts
  {rt : Runtime} (state : string) (w : world) (alertsData features : value) :
  nws_result (w 0 (nws_request (NWS_API_BASE ++ "/alerts?area="
                                ++ String_toUpperCase state))) = alertsData ->
  truthy alertsData = true ->
  get_prop alertsData "features" = Normal features ->
  truthy features = false \/ features = VArr [] ->
  run (get_alerts state) w 0
  = ([nws_request (NWS_API_BASE ++ "/alerts?area=" ++ String_toUpperCase state)],
     Returned (text_content ("No active alerts for " ++ String_toUpperCase state))).
Proof.
  intros Hw Htruthy Hfeatures Hnone.
  unfold get_alerts. cbv zeta. rewrite run_after_nws, Hw, Htruthy.
  cbn [negb bind lift run]. rewrite Hfeatures. cbn [bind lift].
  destruct Hnone as [Hfalsy | ->]; [| reflexivity].
  unfold or_else. rewrite Hfalsy. reflexivity.
Qed.

Lemma get_alerts_no_active_alerts_witness :
  let w := Examples.answering 200 (VObj [("features", VNull)]) in
  nws_result (w 0 (nws_request (NWS_API_BASE ++ "/alerts?area="
                                ++ String_toUpperCase (Runtime := Sample.runtime) "ks")))
  = VObj [("features", VNull)]
  /\ truthy (VObj [("features", VNull)]) = true
  /\ get_prop (VObj [("features", VNull)]) "features" = Normal VNull
  /\ (truthy VNull = false \/ VNull = VArr [])
  /\ run (get_alerts (rt := Sample.runtime) "ks") w 0
     = ([nws_request "https://api.weather.gov/alerts?area=KS"],
        Returned (text_content "No active alerts for KS")).
Proof.
  repeat (split; [reflexivity |]).
  split; [left; reflexivity |].
  apply (get_alerts_no_active_alerts (rt := Sample.runtime) "ks"
           (Examples.answering 200 (VObj [("features", VNull)]))
           (VObj [("features", VNull)]) VNull);
    try reflexivity.
  left; reflexivity.
Defined.

(** X4.  When the decoded response lists at least one feature and every
    feature has the declared shape, get-alerts queries the upper-cased
    state once and returns one text block: the header naming that state, a
    blank line, and the alerts in order, each rendered as its five
    labelled lines and the separator, joined by newlines. *)
Theorem get_alerts_lists_alerts
  {rt : Runtime} (state : string) (w : world) (alertsData : value)
  (first : AlertFeature.t) (others : list AlertFeature.t) :
  nws_result (w 0 (nws_request (NWS_API_BASE ++ "/alerts?area="
                                ++ String_toUpperCase state))) = alertsData ->
  truthy alertsData = true ->
  get_prop alertsData "features"
  = Normal (VArr (map AlertFeature.encode (first :: others))) ->
  run (get_alerts state) w 0
  = ([nws_request (NWS_API_BASE ++ "/alerts?area=" ++ String_toUpperCase state)],
     Returned (text_content
                 ("Active alerts for " ++ String_toUpperCase state ++ ":"
                  ++ newline ++ newline
                  ++ join newline (map render_alert (first :: others))))).
Proof.
  intros Hw Htruthy Hfeatures.
  unfold get_alerts. cbv zeta. rewrite run_after_nws, Hw, Htruthy.
  cbn [negb bind lift run]. rewrite Hfeatures.
  cbn [bind lift or_else truthy get_prop String.eqb Ascii.eqb Bool.eqb map].
  rewrite length_of_nonempty_is_not_zero.
  cbn [array_map]. change (AlertFeature.encode first :: map AlertFeature.encode others)
    with (map AlertFeature.encode (first :: others)).
  rewrite map_alerts. reflexivity.
Qed.

Lemma get_alerts_lists_alerts_witness :
  let data := MoreExamples.alerts_response [MoreExamples.flood; MoreExamples.wind] in
  let w := Examples.answering 200 data in
  nws_result (w 0 (nws_request (NWS_API_BASE ++ "/alerts?area="
                                ++ String_toUpperCase (Runtime := Sample.runtime) "ks")))
  = data
  /\ truthy data = true
  /\ get_prop data "features"
     = Normal (VArr (map AlertFeature.encode [MoreExamples.flood; MoreExamples.wind]))
  /\ run (get_alerts (rt := Sample.runtime) "ks") w 0
     = ([nws_request "https://api.weather.gov/alerts?area=KS"],
        Returned (text_content
                    ("Active alerts for KS:" ++ newline ++ newline
                     ++ join newline
                          (map render_alert [MoreExamples.flood; MoreExamples.wind])))).
Proof.
  repeat (split; [reflexivity |]).
  apply (get_alerts_lists_alerts (rt := Sample.runtime) "ks"
           (Examples.answering 200
              (MoreExamples.alerts_response [MoreExamples.flood; MoreExamples.wind]))
           (MoreExamples.alerts_response [MoreExamples.flood; MoreExamples.wind])
           MoreExamples.flood [MoreExamples.wind]);
    reflexivity.
Defined.

(** ** get-forecast *)

Lemma subst_or_temperature {rt : Runtime} (o : option number) :
  subst_or (optional_value (option_map VNum o)) "Unknown"
  = Normal (shown_temperature o).
Proof.
  destruct o as [x |]; [| reflexivity].
  unfold subst_or, or_else. cbn [optional_value option_map truthy shown_temperature].
  destruct (number_truthy x); reflexivity.
Qed.

Lemma formatPeriod_encode {rt : Runtime} (p : ForecastPeriod.t) :
  formatPeriod (ForecastPeriod.encode p) = Normal (render_period p).
Proof.
  unfold formatPeriod. rewrite period_lines_encode, subst_or_temperature. reflexivity.
Qed.

Lemma map_periods {rt : Runtime} (periods : list ForecastPeriod.t) (i : nat) :
  map_from (fun period (_ : nat) => formatPeriod period)
           (map ForecastPeriod.encode periods) i
  = Normal (map render_period periods).
Proof.
  revert i. induction periods as [| p periods IH]; intros i; [reflexivity |].
  cbn [map map_from]. rewrite formatPeriod_encode. cbn [cbind].
  rewrite IH. reflexivity.
Qed.

Lemma truthy_nonempty_string (u : string) : u <> "" -> truthy (VStr u) = true.
Proof. destruct u; [contradiction | reflexivity]. Qed.

(** The run of get-forecast up to the forecast request. *)
Ltac forecast_lookup Hw Htruthy Hchain :=
  unfold get_forecast; rewrite run_after_nws, Hw, Htruthy;
  cbn [negb bind lift run];
  unfold optional_chain in Hchain;
  let props := fresh "props" in
  let e := fresh "e" in
  destruct (get_prop _ "properties") as [props | e]; [| discriminate Hchain];
  cbn [cbind] in Hchain; cbn [bind lift]; rewrite Hchain; cbn [bind lift].

(** X6.  When the grid lookup gives no usable data, get-forecast issues no
    further call and reports the failure with both coordinates as
    JavaScript prints them (not rounded to four decimals). *)
Theorem get_forecast_reports_lookup_failure
  {rt : Runtime} (latitude longitude : number) (w : world) :
  truthy (nws_result (w 0 (nws_request (pointsUrl latitude longitude)))) = false ->
  run (get_forecast latitude longitude) w 0
  = ([nws_request (pointsUrl latitude longitude)],
     Returned (text_content
                 ("Failed to retrieve grid point data for coordinates: "
                  ++ Number_toString latitude ++ ", " ++ Number_toString longitude
                  ++ ". This location may not be supported by the NWS API (only US locations are supported)."))).
Proof.
  intros H. unfold get_forecast. rewrite run_after_nws, H. reflexivity.
Qed.

Lemma get_forecast_reports_lookup_failure_witness :
  truthy (nws_result
            (Examples.answering 404 (VObj [("title", VStr "Data Unavailable")])
               0 (nws_request (pointsUrl (rt := Sample.runtime)
                                 (number_of_nat 48) (Finite false 5 (-1))))))
  = false
  /\ run (get_forecast (rt := Sample.runtime) (number_of_nat 48) (Finite false 5 (-1)))
         (Examples.answering 404 (VObj [("title", VStr "Data Unavailable")])) 0
     = ([nws_request "https://api.weather.gov/points/48.0000,2.5000"],
        Returned (text_content
                    "Failed to retrieve grid point data for coordinates: 48, 2.5. This location may not be supported by the NWS API (only US locations are supported).")).
Proof.
  split; [reflexivity |].
  apply (get_forecast_reports_lookup_failure (rt := Sample.runtime)
           (number_of_nat 48) (Finite false 5 (-1))
           (Examples.answering 404 (VObj [("title", VStr "Data Unavailable")]))).
  reflexivity.
Defined.

(** X7.  A forecast value that is present but falsy ([null], the empty
    string, [0], [false]) is treated as a missing URL: no second call, and
    the URL-missing text. *)
Theorem get_forecast_falsy_url_short_circuits
  {rt : Runtime} (latitude longitude : number) (w : world)
  (pointsData forecastUrl : value) :
  nws_result (w 0 (nws_request (pointsUrl latitude longitude))) = pointsData ->
  truthy pointsData = true ->
  optional_chain pointsData "properties" "forecast" = Normal forecastUrl ->
  truthy forecastUrl = false ->
  run (get_forecast latitude longitude) w 0
  = ([nws_request (pointsUrl latitude longitude)],
     Returned (text_content "Failed to get forecast URL from grid point data")).
Proof.
  intros Hw Htruthy Hchain Hfalsy.
  forecast_lookup Hw Htruthy Hchain. rewrite Hfalsy. reflexivity.
Qed.

Lemma get_forecast_falsy_url_short_circuits_witness :
  let data := VObj [("properties", VObj [("forecast", VStr "")])] in
  let w := Examples.answering 200 data in
  nws_result (w 0 (nws_request (pointsUrl (rt := Sample.runtime)
                                  Examples.topeka_latitude Examples.topeka_longitude)))
  = data
  /\ truthy data = true
  /\ optional_chain data "properties" "forecast" = Normal (VStr "")
  /\ truthy (VStr "") = false
  /\ run (get_forecast (rt := Sample.runtime)
            Examples.topeka_latitude Examples.topeka_longitude) w 0
     = ([nws_request (pointsUrl (rt := Sample.runtime)
                        Examples.topeka_latitude Examples.topeka_longitude)],
        Returned (text_content "Failed to get forecast URL from grid point data")).
Proof.
  repeat (split; [reflexivity |]).
  apply (get_forecast_falsy_url_short_circuits (rt := Sample.runtime)
           Examples.topeka_latitude Examples.topeka_longitude
           (Examples.answering 200 (VObj [("properties", VObj [("forecast", VStr "")])]))
           (VObj [("properties", VObj [("forecast", VStr "")])]) (VStr ""));
    reflexivity.
Defined.

(** X8.  When the grid lookup yields a forecast URL and the request to that
    URL gives no usable data, get-forecast has issued exactly the two
    requests, the second one to the URL as the lookup gave it, and reports
    that the forecast could not be retrieved. *)
Theorem get_forecast_reports_forecast_failure
  {rt : Runtime} (latitude longitude : number) (w : world)
  (pointsData : value) (u : string) :
  nws_result (w 0 (nws_request (pointsUrl latitude longitude))) = pointsData ->
  truthy pointsData = true ->
  optional_chain pointsData "properties" "forecast" = Normal (VStr u) ->
  u <> "" ->
  truthy (nws_result (w 1 (nws_request u))) = false ->
  run (get_forecast latitude longitude) w 0
  = ([nws_request (pointsUrl latitude longitude); nws_request u],
     Returned (text_content "Failed to retrieve forecast data")).
Proof.
  intros Hw Htruthy Hchain Hu Hfail.
  forecast_lookup Hw Htruthy Hchain. rewrite (truthy_nonempty_string u Hu).
  cbn [negb]. rewrite run_after_nws, Hfail. reflexivity.
Qed.

Lemma get_forecast_reports_forecast_failure_witness :
  let w := MoreExamples.then_answering (Rejected MoreExamples.timeout) in
  nws_result (w 0 (nws_request (pointsUrl (rt := Sample.runtime)
                                  Examples.topeka_latitude Examples.topeka_longitude)))
  = Examples.points_with_forecast
  /\ truthy Examples.points_with_forecast = true
  /\ optional_chain Examples.points_with_forecast "properties" "forecast"
     = Normal (VStr MoreExamples.forecast_url)
  /\ MoreExamples.forecast_url <> ""
  /\ truthy (nws_result (w 1 (nws_request MoreExamples.forecast_url))) = false
  /\ run (get_forecast (rt := Sample.runtime)
            Examples.topeka_latitude Examples.topeka_longitude) w 0
     = ([nws_request (pointsUrl (rt := Sample.runtime)
                        Examples.topeka_latitude Examples.topeka_longitude);
         nws_request MoreExamples.forecast_url],
        Returned (text_content "Failed to retrieve forecast data")).
Proof.
  split; [reflexivity |]. split; [reflexivity |]. split; [reflexivity |].
  split; [discriminate |]. split; [reflexivity |].
  apply (get_forecast_reports_forecast_failure (rt := Sample.runtime)
           Examples.topeka_latitude Examples.topeka_longitude
           (MoreExamples.then_answering (Rejected MoreExamples.timeout))
           Examples.points_with_forecast MoreExamples.forecast_url);
    try reflexivity.
  discriminate.
Defined.

(** X9.  When the forecast response has no periods (absent [properties],
    absent or falsy [periods], or an empty list), get-forecast says that
    no forecast periods are available. *)
Theorem get_forecast_no_periods
  {rt : Runtime} (latitude longitude : number) (w : world)
  (pointsData forecastData periods : value) (u : string) :
  nws_result (w 0 (nws_request (pointsUrl latitude longitude))) = pointsData ->
  truthy pointsData = true ->
  optional_chain pointsData "properties" "forecast" = Normal (VStr u) ->
  u <> "" ->
  nws_result (w 1 (nws_request u)) = forecastData ->
  truthy forecastData = true ->
  optional_chain forecastData "properties" "periods" = Normal periods ->
  truthy periods = false \/ periods = VArr [] ->
  run (get_forecast latitude longitude) w 0
  = ([nws_request (pointsUrl latitude longitude); nws_request u],
     Returned (text_content "No forecast periods available")).
Proof.
  intros Hw Htruthy Hchain Hu Hw2 Htruthy2 Hchain2 Hnone.
  forecast_lookup Hw Htruthy Hchain. rewrite (truthy_nonempty_string u Hu).
  cbn [negb]. rewrite run_after_nws, Hw2, Htruthy2.
  cbn [negb bind lift run]. unfold optional_chain in Hchain2.
  destruct (get_prop forecastData "properties") as [props2 | e2];
    [| discriminate Hchain2].
  cbn [cbind] in Hchain2. cbn [bind lift]. rewrite Hchain2. cbn [bind lift].
  destruct Hnone as [Hfalsy | ->]; [| reflexivity].
  unfold or_else. rewrite Hfalsy. reflexivity.
Qed.

Lemma get_forecast_no_periods_witness :
  let w := MoreExamples.then_answering
             (Resolved (mkResponse 200 (Normal "") (Normal (VObj [])))) in
  nws_result (w 0 (nws_request (pointsUrl (rt := Sample.runtime)
                                  Examples.topeka_latitude Examples.topeka_longitude)))
  = Examples.points_with_forecast
  /\ truthy Examples.points_with_forecast = true
  /\ optional_chain Examples.points_with_forecast "properties" "forecast"
     = Normal (VStr MoreExamples.forecast_url)
  /\ MoreExamples.forecast_url <> ""
  /\ nws_result (w 1 (nws_request MoreExamples.forecast_url)) = VObj []
  /\ truthy (VObj []) = true
  /\ optional_chain (VObj []) "properties" "periods" = Normal VUndefined
  /\ (truthy VUndefined = false \/ VUndefined = VArr [])
  /\ run (get_forecast (rt := Sample.runtime)
            Examples.topeka_latitude Examples.topeka_longitude) w 0
     = ([nws_request (pointsUrl (rt := Sample.runtime)
                        Examples.topeka_latitude Examples.topeka_longitude);
         nws_request MoreExamples.forecast_url],
        Returned (text_content "No forecast periods available")).
Proof.
  split; [reflexivity |]. split; [reflexivity |]. split; [reflexivity |].
  split; [discriminate |]. split; [reflexivity |]. split; [reflexivity |].
  split; [reflexivity |]. split; [left; reflexivity |].
  apply (get_forecast_no_periods (rt := Sample.runtime)
           Examples.topeka_latitude Examples.topeka_longitude
           (MoreExamples.then_answering
              (Resolved (mkResponse 200 (Normal "") (Normal (VObj [])))))
           Examples.points_with_forecast (VObj []) VUndefined
           MoreExamples.forecast_url);
    try reflexivity.
  - discriminate.
  - left; reflexivity.
Defined.

(** X10.  When both requests succeed and the forecast lists at least one
    period, every period of the declared shape, get-forecast returns one
    text block: the header with the two coordinates as JavaScript prints
    them, a blank line, and the periods in order, each rendered as its
    name, temperature, wind and narrative lines and the separator. *)
Theorem get_forecast_lists_periods
  {rt : Runtime} (latitude longitude : number) (w : world)
  (pointsData forecastData : value) (u : string)
  (first : ForecastPeriod.t) (others : list ForecastPeriod.t) :
  nws_result (w 0 (nws_request (pointsUrl latitude longitude))) = pointsData ->
  truthy pointsData = true ->
  optional_chain pointsData "properties" "forecast" = Normal (VStr u) ->
  u <> "" ->
  nws_result (w 1 (nws_request u)) = forecastData ->
  truthy forecastData = true ->
  optional_chain forecastData "properties" "periods"
  = Normal (VArr (map ForecastPeriod.encode (first :: others))) ->
  run (get_forecast latitude longitude) w 0
  = ([nws_request (pointsUrl latitude longitude); nws_request u],
     Returned (text_content
                 ("Forecast for " ++ Number_toString latitude ++ ", "
                  ++ Number_toString longitude ++ ":" ++ newline ++ newline
                  ++ join newline (map render_period (first :: others))))).
Proof.
  intros Hw Htruthy Hchain Hu Hw2 Htruthy2 Hchain2.
  forecast_lookup Hw Htruthy Hchain. rewrite (truthy_nonempty_string u Hu).
  cbn [negb]. rewrite run_after_nws, Hw2, Htruthy2.
  cbn [negb bind lift run]. unfold optional_chain in Hchain2.
  destruct (get_prop forecastData "properties") as [props2 | e2];
    [| discriminate Hchain2].
  cbn [cbind] in Hchain2. cbn [bind lift]. rewrite Hchain2.
  cbn [bind lift or_else truthy get_prop String.eqb Ascii.eqb Bool.eqb map].
  rewrite length_of_nonempty_is_not_zero.
  cbn [array_map].
  change (ForecastPeriod.encode first :: map ForecastPeriod.encode others)
    with (map ForecastPeriod.encode (first :: others)).
  rewrite map_periods. reflexivity.
Qed.

Lemma get_forecast_lists_periods_witness :
  let forecast := Examples.forecast_response
                    (map ForecastPeriod.encode [Examples.tonight; Examples.tonight_calm]) in
  let w := MoreExamples.then_answering
             (Resolved (mkResponse 200 (Normal "") (Normal forecast))) in
  nws_result (w 0 (nws_request (pointsUrl (rt := Sample.runtime)
                                  Examples.topeka_latitude Examples.topeka_longitude)))
  = Examples.points_with_forecast
  /\ truthy Examples.points_with_forecast = true
  /\ optional_chain Examples.points_with_forecast "properties" "forecast"
     = Normal (VStr MoreExamples.forecast_url)
  /\ MoreExamples.forecast_url <> ""
  /\ nws_result (w 1 (nws_request MoreExamples.forecast_url)) = forecast
  /\ truthy forecast = true
  /\ optional_chain forecast "properties" "periods"
     = Normal (VArr (map ForecastPeriod.encode [Examples.tonight; Examples.tonight_calm]))
  /\ run (get_forecast (rt := Sample.runtime)
            Examples.topeka_latitude Examples.topeka_longitude) w 0
     = ([nws_request (pointsUrl (rt := Sample.runtime)
                        Examples.topeka_latitude Examples.topeka_longitude);
         nws_request MoreExamples.forecast_url],
        Returned (text_content
                    ("Forecast for "
                     ++ Number_toString (Runtime := Sample.runtime) Examples.topeka_latitude
                     ++ ", "
                     ++ Number_toString (Runtime := Sample.runtime) Examples.topeka_longitude
                     ++ ":" ++ newline ++ newline
                     ++ join newline
                          (map (render_period (rt := Sample.runtime))
                               [Examples.tonight; Examples.tonight_calm])))).
Proof.
  split; [reflexivity |]. split; [reflexivity |]. split; [reflexivity |].
  split; [discriminate |]. split; [reflexivity |]. split; [reflexivity |].
  split; [reflexivity |].
  apply (get_forecast_lists_periods (rt := Sample.runtime)
           Examples.topeka_latitude Examples.topeka_longitude
           (MoreExamples.then_answering
              (Resolved (mkResponse 200 (Normal "")
                           (Normal (Examples.forecast_response
                                      (map ForecastPeriod.encode
                                           [Examples.tonight; Examples.tonight_calm]))))))
           Examples.points_with_forecast
           (Examples.forecast_response
              (map ForecastPeriod.encode [Examples.tonight; Examples.tonight_calm]))
           MoreExamples.forecast_url Examples.tonight [Examples.tonight_calm]);
    try reflexivity.
  discriminate.
Defined.

(** ** The requests an invocation issues *)

Ltac no_call_step :=
  lazymatch goal with
  | |- calls_at_most _ (bind (lift _) _) => apply calls_at_most_lift_bind; intros ?
  | |- calls_at_most _ (if ?c then _ else _) => destruct c
  | |- calls_at_most _ (Ret _) => exact I
  | |- calls_at_most _ (Throw _) => exact I
  | |- calls_at_most _ (let _ := _ in _) => cbv zeta
  end.

Lemma no_calls {A : Type} (p : prog A) (w : world) (n : nat) :
  calls_at_most 0 p -> fst (run p w n) = [].
Proof.
  intros H. pose proof (calls_at_most_sound 0 p w n H) as Hlen.
  destruct (fst (run p w n)); [reflexivity | simpl in Hlen; lia].
Qed.

Lemma one_call {A : Type} (p : prog A) (rq : request) (w : world) :
  first_call p = Some rq -> calls_at_most 1 p -> calls_of p w = [rq].
Proof.
  intros Hfirst Hmost. unfold calls_of.
  destruct (first_call_sound p rq w 0 Hfirst) as [rest Hrest].
  pose proof (calls_at_most_sound 1 p w 0 Hmost) as Hlen.
  rewrite Hrest in *. destruct rest; [reflexivity | simpl in Hlen; lia].
Qed.

(** X11.  Whatever the world answers, get-forecast requests the grid lookup
    for the two coordinates and then, only when the lookup result is
    truthy and its [properties?.forecast] is truthy and converts to a
    string, that URL; it issues no other request. *)
Theorem get_forecast_requests
  {rt : Runtime} (latitude longitude : number) (w : world) :
  calls_of (get_forecast latitude longitude) w
  = nws_request (pointsUrl latitude longitude)
    :: match forecast_target
               (nws_result (w 0 (nws_request (pointsUrl latitude longitude)))) with
       | Some u => [nws_request u]
       | None => []
       end.
Proof.
  unfold calls_of, get_forecast. rewrite run_after_nws.
  set (pointsData := nws_result (w 0 (nws_request (pointsUrl latitude longitude)))).
  unfold forecast_target, optional_chain.
  destruct (truthy pointsData); cbn [negb]; [| reflexivity].
  destruct (get_prop pointsData "properties") as [props | e]; [| reflexivity].
  cbn [bind lift cbind].
  destruct (get_prop_opt props "forecast") as [forecastUrl | e]; [| reflexivity].
  cbn [bind lift].
  destruct (truthy forecastUrl); cbn [negb]; [| reflexivity].
  rewrite run_after_nws_value.
  destruct (ToString forecastUrl) as [u | e]; [| reflexivity].
  match goal with
  | |- context [run ?p w 2] =>
      assert (Hnone : fst (run p w 2) = [])
        by (apply no_calls; repeat no_call_step);
      destruct (run p w 2) as [calls o]
  end.
  simpl in Hnone. subst calls. reflexivity.
Qed.

(** X12.  Whatever the world answers, each of the other four tools issues
    exactly one request, fixed by its arguments: the alerts query for the
    upper-cased state, the POST of the three fields as JSON, the GET of
    the session's notifications (the session id appended as it is, no
    headers), and the GET of the latest prices. *)
Theorem single_call_tools_requests {rt : Runtime} (w : world) :
  (forall state,
      calls_of (get_alerts state) w
      = [mkRequest "GET"
           ("https://api.weather.gov/alerts?area=" ++ String_toUpperCase state)
           [("User-Agent", "weather-app/1.0"); ("Accept", "application/geo+json")]
           None])
  /\ (forall session_id token targetPrice,
         calls_of (register_notification session_id token targetPrice) w
         = [mkRequest "POST" "http://localhost:3001/api/notification"
              [("Content-Type", "application/json")]
              (Some (JSON_stringify 0
                       (VObj [("session_id", VStr session_id);
                              ("token", VStr token);
                              ("targetPrice", VStr targetPrice)])))])
  /\ (forall session_id,
         calls_of (get_user_notifications session_id) w
         = [mkRequest "GET"
              ("http://localhost:3001/api/userNotification?session_id=" ++ session_id)
              [] None])
  /\ calls_of get_latest_token_price w
     = [mkRequest "GET" "http://localhost:3001/api/latestTokenPrice"
          [("Content-Type", "application/json")] None].
Proof.
  destruct local_handlers_call_once as (Hr & Hu & Hp).
  repeat split; intros; apply one_call;
    auto using get_alerts_calls.
Qed.

(** ** The handlers of the local provider *)

(** X14.  register-notification, get-user-notifications and
    get-latest-token-price return an envelope whatever the world answers:
    a rejected fetch, any status, a body that cannot be read or decoded,
    a decoded value of any shape. *)
Theorem local_provider_handlers_always_return {rt : Runtime} (w : world) :
  (forall session_id token targetPrice,
      exists env,
        outcome_of (register_notification session_id token targetPrice) w
        = Returned env)
  /\ (forall session_id,
         exists env, outcome_of (get_user_notifications session_id) w = Returned env)
  /\ exists env, outcome_of get_latest_token_price w = Returned env.
Proof.
  destruct local_handlers_never_throw as (Hr & Hu & Hp).
  repeat split; intros; apply never_throws_sound; auto.
Qed.

(** X15.  When the POST is rejected, or the body of its response cannot be
    read, register-notification returns the failure text with the error
    rendered as [name: message]. *)
Theorem register_notification_reports_error
  {rt : Runtime} (session_id token targetPrice : string) (w : world) (e : js_error) :
  w 0 (notification_request session_id token targetPrice) = Rejected e
  \/ (exists r, w 0 (notification_request session_id token targetPrice) = Resolved r
                /\ body_text r = Abrupt e) ->
  run (register_notification session_id token targetPrice) w 0
  = ([notification_request session_id token targetPrice],
     Returned (text_content
                 ("âŒ Failed to register alert: " ++ error_to_string e))).
Proof.
  intros [H | (r & H & Hbody)]; unfold register_notification;
    cbn [run try_catch bind fetch]; rewrite H; [reflexivity |].
  cbn [run try_catch bind lift]. rewrite Hbody. reflexivity.
Qed.

Lemma register_notification_reports_error_witness :
  (MoreExamples.offline 0
     (notification_request (rt := Sample.runtime) "abc" "ETH" "1928.23")
   = Rejected MoreExamples.timeout
   \/ (exists r,
          MoreExamples.offline 0
            (notification_request (rt := Sample.runtime) "abc" "ETH" "1928.23")
          = Resolved r
          /\ body_text r = Abrupt MoreExamples.timeout))
  /\ run (register_notification (rt := Sample.runtime) "abc" "ETH" "1928.23")
         MoreExamples.offline 0
     = ([notification_request (rt := Sample.runtime) "abc" "ETH" "1928.23"],
        Returned (text_content
                    "âŒ Failed to register alert: TypeError: fetch failed")).
Proof.
  split; [left; reflexivity |].
  apply (register_notification_reports_error (rt := Sample.runtime)
           "abc" "ETH" "1928.23" MoreExamples.offline MoreExamples.timeout).
  left; reflexivity.
Defined.

Lemma notification_line_encode {rt : Runtime} (n : UserNotification.t) (i : nat) :
  notification_line (UserNotification.encode n) i
  = Normal (notification_entry (S i) n).
Proof.
  unfold notification_line, notification_entry. rewrite Nat.add_1_r. reflexivity.
Qed.

Lemma map_notifications {rt : Runtime} (l : list UserNotification.t) (i : nat) :
  map_from notification_line (map UserNotification.encode l) i
  = Normal (notification_entries (S i) l).
Proof.
  revert i. induction l as [| n l IH]; intros i; [reflexivity |].
  cbn [map map_from notification_entries]. rewrite notification_line_encode.
  cbn [cbind]. rewrite IH. reflexivity.
Qed.

(** X16.  When the decoded response lists at least one notification of the
    declared shape, get-user-notifications returns one text block,
    whatever the status: the header naming the session, a blank line, and
    one line per notification in order, numbered from 1, with its token,
    target price and condition. *)
Theorem get_user_notifications_lists_entries
  {rt : Runtime} (session_id : string) (w : world) (r : Response) (data : value)
  (first : UserNotification.t) (others : list UserNotification.t) :
  w 0 (user_notifications_request session_id) = Resolved r ->
  body_json r = Normal data ->
  get_prop data "userNotifications"
  = Normal (VArr (map UserNotification.encode (first :: others))) ->
  run (get_user_notifications session_id) w 0
  = ([user_notifications_request session_id],
     Returned (text_content
                 ("ðŸ“¬ Notifications for session **" ++ session_id ++ "**:"
                  ++ newline ++ newline
                  ++ join newline (notification_entries 1 (first :: others))))).
Proof.
  intros Hw Hjson Hget. unfold get_user_notifications.
  cbn [run try_catch bind fetch]. rewrite Hw.
  cbn [run try_catch bind lift]. rewrite Hjson.
  cbn [run try_catch bind lift]. rewrite Hget.
  cbn [run try_catch bind lift truthy negb get_prop String.eqb Ascii.eqb Bool.eqb map].
  rewrite length_of_nonempty_is_not_zero.
  cbn [run try_catch bind lift array_map].
  change (UserNotification.encode first :: map UserNotification.encode others)
    with (map UserNotification.encode (first :: others)).
  rewrite map_notifications. reflexivity.
Qed.

Lemma get_user_notifications_lists_entries_witness :
  let data := MoreExamples.notifications_response
                [MoreExamples.eth_alert; MoreExamples.btc_alert] in
  let r := mkResponse 200 (Normal (Sample.stringify 0 data)) (Normal data) in
  Examples.answering 200 data 0 (user_notifications_request "abc") = Resolved r
  /\ body_json r = Normal data
  /\ get_prop data "userNotifications"
     = Normal (VArr (map UserNotification.encode
                         [MoreExamples.eth_alert; MoreExamples.btc_alert]))
  /\ run (get_user_notifications (rt := Sample.runtime) "abc")
         (Examples.answering 200 data) 0
     = ([user_notifications_request "abc"],
        Returned (text_content
                    ("ðŸ“¬ Notifications for session **abc**:"
                     ++ newline ++ newline
                     ++ join newline
                          [ "#1 - Token: ETH, Target: 1928.23, Condition: above";
                            "#2 - Token: BTC, Target: 60000, Condition: below" ]))).
Proof.
  repeat (split; [reflexivity |]).
  apply (get_user_notifications_lists_entries (rt := Sample.runtime) "abc"
           (Examples.answering 200
              (MoreExamples.notifications_response
                 [MoreExamples.eth_alert; MoreExamples.btc_alert]))
           (mkResponse 200
              (Normal (Sample.stringify 0
                         (MoreExamples.notifications_response
                            [MoreExamples.eth_alert; MoreExamples.btc_alert])))
              (Normal (MoreExamples.notifications_response
                         [MoreExamples.eth_alert; MoreExamples.btc_alert])))
           (MoreExamples.notifications_response
              [MoreExamples.eth_alert; MoreExamples.btc_alert])
           MoreExamples.eth_alert [MoreExamples.btc_alert]);
    reflexivity.
Defined.

(** X17.  When the GET is rejected, or the body of its response does not
    decode, get-user-notifications returns the failure text with the
    message of the error, or [Unknown error] when the message is empty. *)
Theorem get_user_notifications_reports_error
  {rt : Runtime} (session_id : string) (w : world) (e : js_error) :
  w 0 (user_notifications_request session_id) = Rejected e
  \/ (exists r, w 0 (user_notifications_request session_id) = Resolved r
                /\ body_json r = Abrupt e) ->
  run (get_user_notifications session_id) w 0
  = ([user_notifications_request session_id],
     Returned (text_content
                 ("âŒ Failed to fetch notifications: "
                  ++ (if (err_message e =? "")%string then "Unknown error"
                      else err_message e)))).
Proof.
  intros [H | (r & H & Hbody)]; unfold get_user_notifications;
    cbn [run try_catch bind fetch]; rewrite H; [reflexivity |].
  cbn [run try_catch bind lift]. rewrite Hbody. reflexivity.
Qed.

Lemma get_user_notifications_reports_error_witness :
  let r := mkResponse 502 (Normal "Bad Gateway")
                      (Abrupt (mkError "SyntaxError" "")) in
  let w : world := fun _ _ => Resolved r in
  (w 0 (user_notifications_request "abc") = Rejected (mkError "SyntaxError" "")
   \/ (exists r', w 0 (user_notifications_request "abc") = Resolved r'
                  /\ body_json r' = Abrupt (mkError "SyntaxError" "")))
  /\ run (get_user_notifications (rt := Sample.runtime) "abc") w 0
     = ([user_notifications_request "abc"],
        Returned (text_content "âŒ Failed to fetch notifications: Unknown error")).
Proof.
  split; [right; eexists; split; reflexivity |].
  apply (get_user_notifications_reports_error (rt := Sample.runtime) "abc"
           (fun _ _ => Resolved (mkResponse 502 (Normal "Bad Gateway")
                                   (Abrupt (mkError "SyntaxError" ""))))
           (mkError "SyntaxError" "")).
  right; eexists; split; reflexivity.
Defined.

(** X18.  When the price request is answered with a 2xx status and a body
    that decodes to a non-null value, get-latest-token-price returns the
    header, a blank line and the [latestTokenPrices] field printed as JSON
    with an indentation of 2, or the word [undefined] when the field is
    absent. *)
Theorem get_latest_token_price_prints_prices
  {rt : Runtime} (w : world) (r : Response) (data latestTokenPrices : value) :
  w 0 token_price_request = Resolved r ->
  ok r = true ->
  body_json r = Normal data ->
  get_prop data "latestTokenPrices" = Normal latestTokenPrices ->
  run get_latest_token_price w 0
  = ([token_price_request],
     Returned (text_content
                 ("Latest Token Prices:" ++ newline ++ newline
                  ++ match latestTokenPrices with
                     | VUndefined => "undefined"
                     | _ => JSON_stringify 2 latestTokenPrices
                     end))).
Proof.
  intros Hw Hok Hjson Hget. unfold get_latest_token_price.
  cbn [run try_catch bind fetch]. rewrite Hw.
  cbn [run try_catch bind lift]. rewrite Hok.
  cbn [negb run try_catch bind lift]. rewrite Hjson.
  cbn [run try_catch bind lift]. rewrite Hget. reflexivity.
Qed.

Lemma get_latest_token_price_prints_prices_witness :
  let r := mkResponse 200 (Normal (Sample.stringify 0 MoreExamples.prices))
                      (Normal MoreExamples.prices) in
  let latest := VObj [("ETH", VNum (Finite false 3857 (-1)));
                      ("BTC", VNum (Finite false 60000 0))] in
  Examples.answering 200 MoreExamples.prices 0
    (token_price_request) = Resolved r
  /\ ok r = true
  /\ body_json r = Normal MoreExamples.prices
  /\ get_prop MoreExamples.prices "latestTokenPrices" = Normal latest
  /\ run (get_latest_token_price (rt := Sample.runtime))
         (Examples.answering 200 MoreExamples.prices) 0
     = ([token_price_request],
        Returned (text_content
                    ("Latest Token Prices:" ++ newline ++ newline
                     ++ JSON_stringify (Runtime := Sample.runtime) 2 latest))).
Proof.
  repeat (split; [reflexivity |]).
  apply (get_latest_token_price_prints_prices (rt := Sample.runtime)
           (Examples.answering 200 MoreExamples.prices)
           (mkResponse 200 (Normal (Sample.stringify 0 MoreExamples.prices))
                       (Normal MoreExamples.prices))
           MoreExamples.prices
           (VObj [("ETH", VNum (Finite false 3857 (-1)));
                  ("BTC", VNum (Finite false 60000 0))]));
    reflexivity.
Defined.

(** X19.  When the price request is answered with a status outside 200..299,
    get-latest-token-price never reads the body and returns the fixed
    error text. *)
Theorem get_latest_token_price_rejects_status
  {rt : Runtime} (w : world) (r : Response) :
  w 0 token_price_request = Resolved r ->
  ok r = false ->
  run get_latest_token_price w 0
  = ([token_price_request],
     Returned (text_content
                 "Error retrieving latest token prices: Error: Failed to fetch latest token prices")).
Proof.
  intros Hw Hok. unfold get_latest_token_price.
  cbn [run try_catch bind fetch]. rewrite Hw.
  cbn [run try_catch bind lift]. rewrite Hok. reflexivity.
Qed.

Lemma get_latest_token_price_rejects_status_witness :
  Examples.answering 500 MoreExamples.prices 0 token_price_request
  = Resolved (mkResponse 500 (Normal (Sample.stringify 0 MoreExamples.prices))
                (Normal MoreExamples.prices))
  /\ ok (mkResponse 500 (Normal (Sample.stringify 0 MoreExamples.prices))
            (Normal MoreExamples.prices)) = false
  /\ run (get_latest_token_price (rt := Sample.runtime))
         (Examples.answering 500 MoreExamples.prices) 0
     = ([token_price_request],
        Returned (text_content
                    "Error retrieving latest token prices: Error: Failed to fetch latest token prices")).
Proof.
  repeat (split; [reflexivity |]).
  apply (get_latest_token_price_rejects_status (rt := Sample.runtime)
           (Examples.answering 500 MoreExamples.prices)
           (mkResponse 500 (Normal (Sample.stringify 0 MoreExamples.prices))
                       (Normal MoreExamples.prices)));
    reflexivity.
Defined.

(** X20.  When the price request is rejected, or a 2xx body does not decode,
    get-latest-token-price returns the error text with the error rendered
    as [name: message]. *)
Theorem get_latest_token_price_reports_error
  {rt : Runtime} (w : world) (e : js_error) :
  w 0 token_price_request = Rejected e
  \/ (exists r, w 0 token_price_request = Resolved r
                /\ ok r = true /\ body_json r = Abrupt e) ->
  run get_latest_token_price w 0
  = ([token_price_request],
     Returned (text_content
                 ("Error retrieving latest token prices: " ++ error_to_string e))).
Proof.
  intros [H | (r & H & Hok & Hbody)]; unfold get_latest_token_price;
    cbn [run try_catch bind fetch]; rewrite H; [reflexivity |].
  cbn [run try_catch bind lift]. rewrite Hok.
  cbn [negb run try_catch bind lift]. rewrite Hbody. reflexivity.
Qed.

Lemma get_latest_token_price_reports_error_witness :
  (MoreExamples.offline 0 token_price_request = Rejected MoreExamples.timeout
   \/ (exists r, MoreExamples.offline 0 token_price_request = Resolved r
                 /\ ok r = true /\ body_json r = Abrupt MoreExamples.timeout))
  /\ run (get_latest_token_price (rt := Sample.runtime)) MoreExamples.offline 0
     = ([token_price_request],
        Returned (text_content
                    "Error retrieving latest token prices: TypeError: fetch failed")).
Proof.
  split; [left; reflexivity |].
  apply (get_latest_token_price_reports_error (rt := Sample.runtime)
           MoreExamples.offline MoreExamples.timeout).
  left; reflexivity.
Defined.

(** ** The value of a coordinate printed with four decimals *)

Lemma read_decimal_zeros (j : nat) (s : string) :
  read_decimal (repeat_string "0" j ++ s) = read_decimal s.
Proof.
  induction j as [| j IH]; [reflexivity |].
  unfold read_decimal in *. cbn [repeat_string append NilEmpty.uint_of_string].
  destruct (NilEmpty.uint_of_string (repeat_string "0" j ++ s)) as [d |];
    destruct (NilEmpty.uint_of_string s) as [d' |]; simpl in *;
    try discriminate; try reflexivity.
  exact IH.
Qed.

Lemma read_decimal_decimal (n : N) : read_decimal (decimal n) = Some n.
Proof. apply decimal_reads_back. Qed.

(** The digits [toFixed] prints around the point are those of [n],
    padded with zeros on the left. *)
Lemma toFixed_digits_value (f : nat) (n : N) :
  f <> 0 ->
  exists whole frac,
    toFixed_digits f n = whole ++ "." ++ frac
    /\ String.length frac = f
    /\ read_decimal (whole ++ frac) = Some n.
Proof.
  intros Hf. unfold toFixed_digits.
  destruct (Nat.eqb_spec f 0) as [-> | _]; [contradiction |].
  set (m := if (n =? 0)%N then "0" else decimal n).
  assert (Hm : read_decimal m = Some n).
  { subst m. destruct (N.eqb_spec n 0) as [-> | _];
      [reflexivity | apply read_decimal_decimal]. }
  assert (Hlen : 1 <= String.length m).
  { subst m. destruct (n =? 0)%N; [simpl; lia | apply decimal_nonempty]. }
  set (padded := if (String.length m <=? f)%nat
                 then repeat_string "0" (f + 1 - String.length m) ++ m else m).
  assert (Hp : read_decimal padded = Some n).
  { subst padded. destruct (String.length m <=? f)%nat; [| exact Hm].
    rewrite read_decimal_zeros. exact Hm. }
  assert (Hplen : f + 1 <= String.length padded).
  { subst padded. destruct (Nat.leb_spec (String.length m) f) as [Hle | Hgt].
    - rewrite length_append, zeros_length. lia.
    - lia. }
  exists (substring 0 (String.length padded - f) padded),
         (substring (String.length padded - f) f padded).
  split; [reflexivity |].
  split; [apply substring_length; lia |].
  pose proof (substring_split padded (String.length padded - f)) as Hsplit.
  replace (String.length padded - (String.length padded - f)) with f in Hsplit by lia.
  rewrite Hsplit by lia. exact Hp.
Qed.

(** The integer [toFixed] prints is the nearest one to the magnitude
    scaled by [10^f], the larger of the two on a tie. *)
Lemma toFixed_n_rounds (f : nat) (m : N) (e : Z) :
  let up := (2 ^ Z.to_N e)%N in
  let down := (2 ^ Z.to_N (- e))%N in
  let n := toFixed_n f m e in
  (2 * (n * down) <= 2 * (m * 10 ^ N.of_nat f * up) + down
   /\ 2 * (m * 10 ^ N.of_nat f * up) + down < 2 * (n * down) + 2 * down)%N.
Proof.
  intros up down n. subst n. unfold toFixed_n.
  destruct (Z.leb_spec 0 e) as [He | He].
  - assert (Hdown : down = 1%N).
    { subst down. replace (Z.to_N (- e)) with 0%N by lia. reflexivity. }
    rewrite Hdown. fold up. lia.
  - assert (Hup : up = 1%N).
    { subst up. replace (Z.to_N e) with 0%N by lia. reflexivity. }
    rewrite Hup, N.mul_1_r.
    pose proof (toFixed_n_nearest f m e He) as H. cbv zeta in H.
    unfold toFixed_n in H. destruct (Z.leb_spec 0 e) as [He' | _]; [lia |].
    exact H.
Qed.

(** X13.  A coordinate within [-180, 180] is printed in the URL as its sign (a
    minus for a negative value, nothing otherwise), whole digits, a point
    and four decimals, and the digits denote the integer nearest to the
    magnitude times 10^4, the larger one when two are equally near. *)
Theorem coordinate_is_rounded_to_four_decimals {rt : Runtime} (x : number) :
  in_range (-180) 180 x = true ->
  exists s m e whole frac n,
    x = Finite s m e
    /\ toFixed 4 x
       = (if s && negb (m =? 0)%N then "-" else "") ++ whole ++ "." ++ frac
    /\ String.length frac = 4
    /\ read_decimal (whole ++ frac) = Some n
    /\ (2 * (n * 2 ^ Z.to_N (- e)) <= 2 * (m * 10 ^ 4 * 2 ^ Z.to_N e) + 2 ^ Z.to_N (- e)
        /\ 2 * (m * 10 ^ 4 * 2 ^ Z.to_N e) + 2 ^ Z.to_N (- e)
           < 2 * (n * 2 ^ Z.to_N (- e)) + 2 * 2 ^ Z.to_N (- e))%N.
Proof.
  intros H.
  destruct (in_range_finite (-180) 180 x) as (s & m & e & -> & Hsmall);
    [lia | lia | exact H |].
  destruct (toFixed_digits_value 4 (toFixed_n 4 m e)) as (whole & frac & Hd & Hlen & Hread);
    [discriminate |].
  exists s, m, e, whole, frac, (toFixed_n 4 m e).
  split; [reflexivity |].
  split; [unfold toFixed; rewrite Hsmall, Hd; reflexivity |].
  split; [exact Hlen |]. split; [exact Hread |].
  exact (toFixed_n_rounds 4 m e).
Qed.

Lemma coordinate_is_rounded_to_four_decimals_witness :
  in_range (-180) 180 Examples.topeka_longitude = true
  /\ exists s m e whole frac n,
       Examples.topeka_longitude = Finite s m e
       /\ toFixed (rt := Sample.runtime) 4 Examples.topeka_longitude
          = (if s && negb (m =? 0)%N then "-" else "") ++ whole ++ "." ++ frac
       /\ String.length frac = 4
       /\ read_decimal (whole ++ frac) = Some n
       /\ (2 * (n * 2 ^ Z.to_N (- e))
            <= 2 * (m * 10 ^ 4 * 2 ^ Z.to_N e) + 2 ^ Z.to_N (- e)
           /\ 2 * (m * 10 ^ 4 * 2 ^ Z.to_N e) + 2 ^ Z.to_N (- e)
              < 2 * (n * 2 ^ Z.to_N (- e)) + 2 * 2 ^ Z.to_N (- e))%N.
Proof.
  split; [vm_compute; reflexivity |].
  apply (coordinate_is_rounded_to_four_decimals (rt := Sample.runtime)
           Examples.topeka_longitude).
  vm_compute; reflexivity.
Defined.

(** ** Features with wrongly typed fields *)

Lemma subst_or_scalar {rt : Runtime} (v : value) (placeholder : string) :
  scalar v = true -> exists s, subst_or v placeholder = Normal s.
Proof.
  intros H. unfold subst_or, or_else.
  destruct (truthy v); [| eexists; reflexivity].
  destruct v; try discriminate H; eexists; reflexivity.
Qed.

Lemma subst_or_field {rt : Runtime}
  (props : list (string * value)) (k placeholder : string) :
  (forall k v, In k alert_field_names -> lookup k props = Some v -> scalar v = true) ->
  In k alert_field_names ->
  exists s, subst_or (optional_value (lookup k props)) placeholder = Normal s.
Proof.
  intros H Hk. destruct (lookup k props) as [v |] eqn:E.
  - apply subst_or_scalar. exact (H k v Hk E).
  - eexists; reflexivity.
Qed.

Lemma formatAlert_scalar_feature {rt : Runtime} (feature : value) :
  scalar_feature feature -> exists s, formatAlert feature = Normal s.
Proof.
  intros (props & Hp & Hscalar). unfold formatAlert, alert_lines.
  rewrite Hp. cbn [cbind]. rewrite !get_prop_object.
  cbn [cbind].
  destruct (subst_or_field props "event" "Unknown" Hscalar ltac:(simpl; tauto)) as [s1 ->]. cbn [cbind].
  destruct (subst_or_field props "areaDesc" "Unknown" Hscalar ltac:(simpl; tauto)) as [s2 ->]. cbn [cbind].
  destruct (subst_or_field props "severity" "Unknown" Hscalar ltac:(simpl; tauto)) as [s3 ->]. cbn [cbind].
  destruct (subst_or_field props "status" "Unknown" Hscalar ltac:(simpl; tauto)) as [s4 ->]. cbn [cbind].
  destruct (subst_or_field props "headline" "No headline" Hscalar ltac:(simpl; tauto)) as [s5 ->].
  eexists; reflexivity.
Qed.

Lemma map_scalar_features {rt : Runtime} (features : list value) (i : nat) :
  Forall scalar_feature features ->
  exists texts,
    map_from (fun feature (_ : nat) => formatAlert feature) features i = Normal texts.
Proof.
  intros H. revert i. induction H as [| f fs Hf _ IH]; intros i.
  - eexists; reflexivity.
  - cbn [map_from]. destruct (formatAlert_scalar_feature f Hf) as [s ->].
    destruct (IH (S i)) as [texts ->]. eexists; reflexivity.
Qed.

(** X5.  get-alerts returns its text block whenever the decoded response
    lists features that each have a [properties] object in which the five
    printed fields are absent or scalars: a field of the wrong scalar type
    (a number, a boolean, [null]) is printed or replaced by its
    placeholder, it does not make the handler throw. *)
Theorem get_alerts_returns_on_scalar_features
  {rt : Runtime} (state : string) (w : world) (alertsData : value)
  (features : list value) :
  nws_result (w 0 (nws_request (NWS_API_BASE ++ "/alerts?area="
                                ++ String_toUpperCase state))) = alertsData ->
  truthy alertsData = true ->
  get_prop alertsData "features" = Normal (VArr features) ->
  Forall scalar_feature features ->
  exists s, outcome_of (get_alerts state) w = Returned (text_content s).
Proof.
  intros Hw Htruthy Hfeatures Hall.
  unfold outcome_of, get_alerts. cbv zeta. rewrite run_after_nws, Hw, Htruthy.
  cbn [negb bind lift run]. rewrite Hfeatures.
  cbn [bind lift or_else truthy get_prop String.eqb Ascii.eqb Bool.eqb].
  destruct features as [| f fs]; [eexists; reflexivity |].
  rewrite length_of_nonempty_is_not_zero. cbn [array_map].
  destruct (map_scalar_features (f :: fs) 0 Hall) as [texts ->].
  eexists; reflexivity.
Qed.

Lemma get_alerts_returns_on_scalar_features_witness :
  let feature := VObj [("properties",
                        VObj [("event", VNum (number_of_nat 7));
                              ("severity", VNull);
                              ("status", VBool true)])] in
  let data := VObj [("features", VArr [feature])] in
  let w := Examples.answering 200 data in
  nws_result (w 0 (nws_request (NWS_API_BASE ++ "/alerts?area="
                                ++ String_toUpperCase (Runtime := Sample.runtime) "ks")))
  = data
  /\ truthy data = true
  /\ get_prop data "features" = Normal (VArr [feature])
  /\ Forall scalar_feature [feature]
  /\ exists s,
       outcome_of (get_alerts (rt := Sample.runtime) "ks") w = Returned (text_content s).
Proof.
  assert (Hall : Forall scalar_feature
                   [VObj [("properties",
                           VObj [("event", VNum (number_of_nat 7));
                                 ("severity", VNull);
                                 ("status", VBool true)])]]).
  { constructor; [| constructor].
    eexists. split; [reflexivity |].
    intros k v _. cbn [lookup].
    destruct (String.eqb "event" k); [intros [= <-]; reflexivity |].
    destruct (String.eqb "severity" k); [intros [= <-]; reflexivity |].
    destruct (String.eqb "status" k); [intros [= <-]; reflexivity |].
    discriminate. }
  split; [reflexivity |]. split; [reflexivity |]. split; [reflexivity |].
  split; [exact Hall |].
  apply (get_alerts_returns_on_scalar_features (rt := Sample.runtime) "ks"
           (Examples.answering 200
              (VObj [("features",
                      VArr [VObj [("properties",
                                   VObj [("event", VNum (number_of_nat 7));
                                         ("severity", VNull);
                                         ("status", VBool true)])]])]))
           (VObj [("features",
                   VArr [VObj [("properties",
                                VObj [("event", VNum (number_of_nat 7));
                                      ("severity", VNull);
                                      ("status", VBool true)])]])])
           [VObj [("properties",
                   VObj [("event", VNum (number_of_nat 7));
                         ("severity", VNull);
                         ("status", VBool true)])]]);
    try reflexivity.
  exact Hall.
Defined.

(** ** The coordinates in the grid-lookup URL *)

(** The decimal digits of a positive number do not start with a zero. *)
Lemma decimal_leading_digit (n : N) :
  n <> 0%N -> exists c rest, decimal n = String c rest /\ c <> "0"%char.
Proof.
  intros Hn. unfold decimal.
  assert (Hnorm : Decimal.unorm (N.to_uint n) = N.to_uint n).
  { rewrite <- DecimalN.Unsigned.to_of, DecimalN.Unsigned.of_to. reflexivity. }
  destruct (N.to_uint n) as [| d | d | d | d | d | d | d | d | d | d] eqn:E;
    try (eexists; eexists; split; [reflexivity | discriminate]).
  - exfalso. apply Hn. rewrite <- (DecimalN.Unsigned.of_to n), E. reflexivity.
  - exfalso. rewrite DecimalFacts.unorm_D0 in Hnorm.
    pose proof (DecimalFacts.nb_digits_unorm d) as Hlen.
    rewrite Hnorm in Hlen. simpl in Hlen.
    assert (Hd : d = Decimal.Nil).
    { destruct d; try reflexivity; exfalso;
        specialize (Hlen ltac:(discriminate)); lia. }
    subst d. apply Hn. rewrite <- (DecimalN.Unsigned.of_to n), E. reflexivity.
Qed.

(** Everything [toFixed] fixes about the digits around the point. *)
Lemma toFixed_digits_full (f : nat) (n : N) :
  f <> 0 ->
  exists whole frac,
    toFixed_digits f n = whole ++ "." ++ frac
    /\ all_digits whole = true
    /\ (whole = "0" \/ exists c rest, whole = String c rest /\ c <> "0"%char)
    /\ String.length frac = f /\ all_digits frac = true
    /\ read_decimal (whole ++ frac) = Some n.
Proof.
  intros Hf. unfold toFixed_digits.
  destruct (Nat.eqb_spec f 0) as [-> | _]; [contradiction |].
  set (m := if (n =? 0)%N then "0" else decimal n).
  assert (Hm : read_decimal m = Some n).
  { subst m. destruct (N.eqb_spec n 0) as [-> | _];
      [reflexivity | apply read_decimal_decimal]. }
  assert (Hmd : all_digits m = true).
  { subst m. destruct (n =? 0)%N; [reflexivity | apply decimal_digits]. }
  assert (Hlen : 1 <= String.length m).
  { subst m. destruct (n =? 0)%N; [simpl; lia | apply decimal_nonempty]. }
  set (padded := if (String.length m <=? f)%nat
                 then repeat_string "0" (f + 1 - String.length m) ++ m else m).
  assert (Hp : read_decimal padded = Some n).
  { subst padded. destruct (String.length m <=? f)%nat; [| exact Hm].
    rewrite read_decimal_zeros. exact Hm. }
  assert (Hpd : all_digits padded = true).
  { subst padded. destruct (String.length m <=? f)%nat; [| exact Hmd].
    apply all_digits_append; [apply zeros_are_digits | exact Hmd]. }
  assert (Hplen : f + 1 <= String.length padded).
  { subst padded. destruct (Nat.leb_spec (String.length m) f) as [Hle | Hgt].
    - rewrite length_append, zeros_length. lia.
    - lia. }
  assert (Hlead : substring 0 (String.length padded - f) padded = "0"
                  \/ exists c rest,
                       substring 0 (String.length padded - f) padded = String c rest
                       /\ c <> "0"%char).
  { subst padded. destruct (Nat.leb_spec (String.length m) f) as [Hle | Hgt].
    - left. rewrite length_append, zeros_length.
      replace (f + 1 - String.length m + String.length m - f) with 1 by lia.
      replace (f + 1 - String.length m) with (S (f - String.length m)) by lia.
      cbn [repeat_string append substring].
      destruct (repeat_string "0" (f - String.length m) ++ m); reflexivity.
    - right. subst m. destruct (N.eqb_spec n 0) as [-> | Hn]; [simpl in Hgt; lia |].
      destruct (decimal_leading_digit n Hn) as (c & rest & Hdec & Hc).
      rewrite Hdec in *. simpl String.length in *.
      replace (S (String.length rest) - f) with (S (String.length rest - f)) by lia.
      exists c, (substring 0 (String.length rest - f) rest).
      split; [reflexivity | exact Hc]. }
  exists (substring 0 (String.length padded - f) padded),
         (substring (String.length padded - f) f padded).
  split; [reflexivity |].
  split; [apply all_digits_substring, Hpd |].
  split; [exact Hlead |].
  split; [apply substring_length; lia |].
  split; [apply all_digits_substring, Hpd |].
  pose proof (substring_split padded (String.length padded - f)) as Hsplit.
  replace (String.length padded - (String.length padded - f)) with f in Hsplit by lia.
  rewrite Hsplit by lia. exact Hp.
Qed.

(** [toFixed(4)] on a number within the bounds of a coordinate. *)
Lemma toFixed_prints_coordinate {rt : Runtime} (lo hi : Z) (x : number) :
  (- 10 ^ 21 < lo)%Z -> (hi < 10 ^ 21)%Z ->
  in_range lo hi x = true -> printed_coordinate x (toFixed 4 x).
Proof.
  intros Hlo Hhi H.
  destruct (in_range_finite lo hi x Hlo Hhi H) as (s & m & e & -> & Hsmall).
  destruct (toFixed_digits_full 4 (toFixed_n 4 m e)) as
    (whole & frac & Hd & Hwhole & Hlead & Hlen & Hfrac & Hread); [discriminate |].
  exists s, m, e, whole, frac, (toFixed_n 4 m e).
  split; [reflexivity |].
  split; [unfold toFixed; rewrite Hsmall, Hd; reflexivity |].
  repeat (split; [assumption |]).
  exact (toFixed_n_rounds 4 m e).
Qed.

(** C8.  For a latitude in [-90, 90] and a longitude in [-180, 180], the
    URL of the grid lookup is the base, [/points/], the latitude, a comma
    and the longitude, where each of the two is the coordinate rounded to
    the nearest multiple of 10^-4 and printed with its sign, its whole
    digits, a point and exactly four decimals; that URL is the one
    get-forecast requests first. *)
Theorem pointsUrl_four_decimals
  {rt : Runtime} (latitude longitude : number) (w : world) :
  in_range (-90) 90 latitude = true ->
  in_range (-180) 180 longitude = true ->
  exists lat lon rest,
    printed_coordinate latitude lat /\ printed_coordinate longitude lon
    /\ fixed_decimals 4 lat /\ fixed_decimals 4 lon
    /\ pointsUrl latitude longitude = NWS_API_BASE ++ "/points/" ++ lat ++ "," ++ lon
    /\ calls_of (get_forecast latitude longitude) w
       = nws_request (NWS_API_BASE ++ "/points/" ++ lat ++ "," ++ lon) :: rest.
Proof.
  intros Hlat Hlon.
  destruct (first_call_sound (get_forecast latitude longitude)
              (nws_request (pointsUrl latitude longitude)) w 0 eq_refl) as [rest Hrest].
  exists (toFixed 4 latitude), (toFixed 4 longitude), rest.
  split; [apply (toFixed_prints_coordinate (-90) 90); [lia | lia | exact Hlat] |].
  split; [apply (toFixed_prints_coordinate (-180) 180); [lia | lia | exact Hlon] |].
  split; [apply (toFixed_in_range (-90) 90); [lia | lia | exact Hlat] |].
  split; [apply (toFixed_in_range (-180) 180); [lia | lia | exact Hlon] |].
  split; [reflexivity | exact Hrest].
Qed.

Lemma pointsUrl_four_decimals_witness :
  in_range (-90) 90 Examples.topeka_latitude = true
  /\ in_range (-180) 180 Examples.topeka_longitude = true
  /\ exists lat lon rest,
       printed_coordinate Examples.topeka_latitude lat
       /\ printed_coordinate Examples.topeka_longitude lon
       /\ fixed_decimals 4 lat /\ fixed_decimals 4 lon
       /\ pointsUrl (rt := Sample.runtime)
            Examples.topeka_latitude Examples.topeka_longitude
          = NWS_API_BASE ++ "/points/" ++ lat ++ "," ++ lon
       /\ calls_of (get_forecast (rt := Sample.runtime)
                      Examples.topeka_latitude Examples.topeka_longitude)
                   Examples.chained
          = nws_request (NWS_API_BASE ++ "/points/" ++ lat ++ "," ++ lon) :: rest.
Proof.
  split; [vm_compute; reflexivity |]. split; [vm_compute; reflexivity |].
  apply (pointsUrl_four_decimals (rt := Sample.runtime)
           Examples.topeka_latitude Examples.topeka_longitude Examples.chained);
    vm_compute; reflexivity.
Defined.

(** The printed form fixes the digits whatever computes them: -2.5 can
    only be printed as a minus sign and digits that denote 25000. *)
Lemma printed_coordinate_fixes_digits (text : string) :
  printed_coordinate (Finite true 5 (-1)) text ->
  exists whole frac,
    text = "-" ++ whole ++ "." ++ frac
    /\ String.length frac = 4
    /\ read_decimal (whole ++ frac) = Some 25000%N.
Proof.
  intros (s & m & e & whole & frac & n & E & -> & _ & _ & Hlen & _ & Hread & Hlow & Hup).
  injection E as <- <- <-. exists whole, frac.
  change (2 ^ Z.to_N (- -1))%N with 2%N in Hlow, Hup.
  change (2 ^ Z.to_N (-1))%N with 1%N in Hlow, Hup.
  change (10 ^ 4)%N with 10000%N in Hlow, Hup.
  assert (n = 25000%N) as -> by lia.
  repeat split; assumption.
Qed.
